(** * finans.py: a personal ledger over SQLite and two interest calculators

    A shallow embedding of [finans.py] and the properties its specification
    states about it.

    - Python [float] is IEEE-754 binary64, taken from the Standard Library's
      executable specification [SpecFloat] at precision 53 and exponent
      bound 1024, so every arithmetic step rounds exactly as the interpreter
      does.
    - The SQLite file is a value of type [database]: the [transactions]
      table is absent or holds rows in rowid order together with the
      AUTOINCREMENT high-water mark.
    - Python exceptions are the [Raise] outcomes of [result].

    - SUM is taken with either of the two accumulators SQLite has had,
      the plain one and the compensated one ([engine]).
    - The menu [main] is a loop over the lines typed, with the conversions
      and the formatting of numbers taken from a [runtime].

    Out of the model: failures of the storage medium itself (disk,
    permissions) and the connection that a raising [add_transaction]
    leaves open. *)

From Stdlib Require Import ZArith List String Bool Lia.
From Stdlib Require Import Floats.SpecFloat.
Import ListNotations.

Local Open Scope string_scope.
Local Open Scope list_scope.
Local Open Scope Z_scope.

(* ===================================================================== *)
(** * Python floats *)
(* ===================================================================== *)

Module Float64.

Definition float := spec_float.

Definition prec : Z := 53.
Definition emax : Z := 1024.

Definition fadd : float -> float -> float := SFadd prec emax.
Definition fsub : float -> float -> float := SFsub prec emax.
Definition fmul : float -> float -> float := SFmul prec emax.
Definition fdiv : float -> float -> float := SFdiv prec emax.
Definition fopp : float -> float := SFopp.
Definition fabs : float -> float := SFabs.

Definition feqb : float -> float -> bool := SFeqb.
Definition fltb : float -> float -> bool := SFltb.
Definition fleb : float -> float -> bool := SFleb.

(** The integer [z] rounded to the nearest double, ties to even;
    infinite when [z] is out of range. *)
Definition of_Z (z : Z) : float := binary_normalize prec emax z 0 false.

(** A decimal literal [num / 10^k] written in the source: the nearest
    double to the quotient. *)
Definition of_ratio (num den : Z) : float := fdiv (of_Z num) (of_Z den).

Definition zero : float := S754_zero false.
Definition one : float := of_Z 1.

Definition is_nan (x : float) : bool :=
  match x with S754_nan => true | _ => false end.

Definition is_inf (x : float) : bool :=
  match x with S754_infinity _ => true | _ => false end.

Definition is_zero (x : float) : bool :=
  match x with S754_zero _ => true | _ => false end.

(** [x >= 0] as Python decides it: false for NaN, true for both zeros. *)
Definition nonneg (x : float) : bool :=
  match x with
  | S754_zero _ => true
  | S754_infinity s | S754_finite s _ _ => negb s
  | S754_nan => false
  end.

(** [x == floor(x)] for a finite [x = m * 2^e]. *)
Definition is_integer (x : float) : bool :=
  match x with
  | S754_zero _ => true
  | S754_finite _ m e =>
      if 0 <=? e then true else (Zpos m mod 2 ^ (- e) =? 0)
  | _ => false
  end.

(** [fmod(fabs(x), 2.0) == 1.0]. *)
Definition is_odd_integer (x : float) : bool :=
  match x with
  | S754_finite _ m e =>
      if 0 <? e then false
      else (Zpos m mod 2 ^ (- e) =? 0) && Z.odd (Zpos m / 2 ^ (- e))
  | _ => false
  end.

(** The integer nearest to [a / b] for [b > 0], ties to the even one. *)
Definition round_half_even_div (a b : Z) : Z :=
  let q := a / b in
  match 2 * (a mod b) ?= b with
  | Lt => q
  | Gt => q + 1
  | Eq => if Z.even q then q else q + 1
  end.

(** The number of hundredths nearest to [|x|] for a finite
    [x = m * 2^e]. *)
Definition cents (m : positive) (e : Z) : Z :=
  round_half_even_div (Zpos m * 100 * 2 ^ Z.max e 0) (2 ^ Z.max (- e) 0).

(** The double nearest to [k / 100], with sign [s]. *)
Definition hundredths (s : bool) (k : Z) : float :=
  match k with
  | Zpos p => fdiv (S754_finite s p 0) (S754_finite false 100 0)
  | _ => S754_zero s
  end.

(** [round(x, 2)] on a float.  The interpreter prints the exact binary
    value of [x] to two decimals, correctly rounded with ties to even,
    and reads the decimal string back as the nearest double.  NaN,
    infinities and zeros round to themselves; a value that rounds to
    zero keeps its sign. *)
Definition round2 (x : float) : float :=
  match x with
  | S754_finite s m e => hundredths s (cents m e)
  | _ => x
  end.

End Float64.

Import Float64.

(* ===================================================================== *)
(** * Python values, exceptions and operators *)
(* ===================================================================== *)

(** The exception classes the program can raise. *)
Inductive exn : Type :=
| ZeroDivisionError
| OverflowError
| TypeError
| IntegrityError      (* sqlite3.IntegrityError *)
| OperationalError.   (* sqlite3.OperationalError *)

Inductive result (A : Type) : Type :=
| Ok (a : A)
| Raise (e : exn).

Arguments Ok {A} a.
Arguments Raise {A} e.

Definition bind {A B} (r : result A) (k : A -> result B) : result B :=
  match r with
  | Ok a => k a
  | Raise e => Raise e
  end.

(** Values met in the ledger: [None], an [int], a [float]. *)
Inductive pyvalue : Type :=
| PyNone
| PyInt (z : Z)
| PyFloat (f : float).

(** What [**] and the product after it can produce: a float, or a complex
    number (whose components the program never inspects). *)
Inductive number : Type :=
| Real (f : float)
| Complex.

(** [float(z)] as applied implicitly to an [int] operand of a float
    operator. *)
Definition float_of_int (z : Z) : result float :=
  let f := of_Z z in
  if is_inf f then Raise OverflowError else Ok f.

(** [a / b] on floats. *)
Definition float_truediv (a b : float) : result float :=
  if is_zero b then Raise ZeroDivisionError else Ok (fdiv a b).

(** [a / z] for a float [a] and an int [z]. *)
Definition float_truediv_int (a : float) (z : Z) : result float :=
  bind (float_of_int z) (fun b => float_truediv a b).

(** [z + a] and [z * a] for an int [z] and a float [a]. *)
Definition int_add_float (z : Z) (a : float) : result float :=
  bind (float_of_int z) (fun b => Ok (fadd b a)).

Definition int_mul_float (z : Z) (a : float) : result float :=
  bind (float_of_int z) (fun b => Ok (fmul b a)).

(** [p * v] for a float [p]. *)
Definition float_mul_number (p : float) (v : number) : number :=
  match v with
  | Real f => Real (fmul p f)
  | Complex => Complex
  end.

(** [round(v, 2)]: complex numbers define no [__round__]. *)
Definition py_round2 (v : number) : result float :=
  match v with
  | Real f => Ok (round2 f)
  | Complex => Raise TypeError
  end.

(** Truth value of an object. *)
Definition truthy (v : pyvalue) : bool :=
  match v with
  | PyNone => false
  | PyInt z => negb (z =? 0)
  | PyFloat f => negb (feqb f zero)
  end.

(** [x or y]. *)
Definition py_or (x y : pyvalue) : pyvalue :=
  if truthy x then x else y.

Definition arith (iop : Z -> Z -> Z) (fop : float -> float -> float)
    (x y : pyvalue) : result pyvalue :=
  match x, y with
  | PyInt a, PyInt b => Ok (PyInt (iop a b))
  | PyInt a, PyFloat b => bind (float_of_int a) (fun a' => Ok (PyFloat (fop a' b)))
  | PyFloat a, PyInt b => bind (float_of_int b) (fun b' => Ok (PyFloat (fop a b')))
  | PyFloat a, PyFloat b => Ok (PyFloat (fop a b))
  | _, _ => Raise TypeError
  end.

(** [x - y] and [x + y]. *)
Definition py_sub : pyvalue -> pyvalue -> result pyvalue := arith Z.sub fsub.
Definition py_add : pyvalue -> pyvalue -> result pyvalue := arith Z.add fadd.

(** Exact comparison of a float with an int, as [==] does it. *)
Definition float_eq_int (f : float) (z : Z) : bool :=
  match f with
  | S754_zero _ => z =? 0
  | S754_finite s m e =>
      let v := if s then Zneg m else Zpos m in
      if 0 <=? e then z =? v * 2 ^ e else z * 2 ^ (- e) =? v
  | _ => false
  end.

(** [x == y]. *)
Definition py_eq (x y : pyvalue) : bool :=
  match x, y with
  | PyNone, PyNone => true
  | PyInt a, PyInt b => a =? b
  | PyFloat a, PyFloat b => feqb a b
  | PyInt a, PyFloat b => float_eq_int b a
  | PyFloat a, PyInt b => float_eq_int a b
  | _, _ => false
  end.

(* ===================================================================== *)
(** * Evaluation of arithmetic expressions *)
(* ===================================================================== *)

(** The operators of the interest formulas. *)
Inductive operator : Type := TrueDiv | Add | Mul | Pow | Round.

(** An evaluation yields the operators it applied, in the interpreter's
    order, and its outcome.  An operator that raises is the last one of
    the list. *)
Definition eval (A : Type) : Type := (list operator * result A)%type.

Definition eval_ret {A} (a : A) : eval A := ([], Ok a).

Definition eval_bind {A B} (c : eval A) (k : A -> eval B) : eval B :=
  match c with
  | (ops, Ok a) => let (ops', r) := k a in (ops ++ ops', r)
  | (ops, Raise e) => (ops, Raise e)
  end.

(** One application of operator [o] with outcome [r]. *)
Definition perform {A} (o : operator) (r : result A) : eval A := ([o], r).

Declare Scope eval_scope.
Delimit Scope eval_scope with eval.
Notation "x <- c ;; k" := (eval_bind c (fun x => k))
  (at level 61, c at next level, right associativity) : eval_scope.

Definition applied {A} (c : eval A) : list operator := fst c.
Definition outcome {A} (c : eval A) : result A := snd c.

(* ===================================================================== *)
(** * Section 4 of finans.py: simple and compound interest *)
(* ===================================================================== *)

(** The calculators receive what the menu passes: [principal], [rate] and
    [time] are floats, [n] is an int. *)

(** [[
def simple_interest(principal, rate, time):
    amount = principal * (1 + (rate/100) * time)
    return round(amount, 2)
]] *)
Definition simple_interest (principal rate time : float) : eval float :=
  (r <- perform TrueDiv (float_truediv_int rate 100) ;;
   rt <- perform Mul (Ok (fmul r time)) ;;
   g <- perform Add (int_add_float 1 rt) ;;
   amount <- perform Mul (Ok (fmul principal g)) ;;
   perform Round (Ok (round2 amount)))%eval.

Section Libm.

(** The C library's [pow] on a positive finite base other than 1 and a
    finite non-zero exponent; it answers an infinity on overflow. *)
Variable libm_pow : float -> float -> float.

(** Whether the complex power of a negative base to a fractional
    exponent reports a range error. *)
Variable cpow_range_error : float -> float -> bool.

(** [iv ** iw] on floats, case by case as the interpreter's
    [float_pow] decides it before and after calling [pow]. *)
Definition float_pow (iv iw : float) : result number :=
  if is_zero iw then Ok (Real one)
  else if is_nan iv then Ok (Real iv)
  else if is_nan iw then Ok (Real (if feqb iv one then one else iw))
  else if is_inf iw then
    let a := fabs iv in
    if feqb a one then Ok (Real one)
    else if Bool.eqb (fltb zero iw) (fltb one a) then Ok (Real (fabs iw))
    else Ok (Real zero)
  else if is_inf iv then
    let odd := is_odd_integer iw in
    if fltb zero iw then Ok (Real (if odd then iv else fabs iv))
    else Ok (Real (if odd then S754_zero (fltb iv zero) else zero))
  else if is_zero iv then
    if fltb iw zero then Raise ZeroDivisionError
    else Ok (Real (if is_odd_integer iw then iv else zero))
  else if fltb iv zero && negb (is_integer iw) then
    if cpow_range_error iv iw then Raise OverflowError else Ok Complex
  else
    let negate := fltb iv zero && is_odd_integer iw in
    let a := fabs iv in
    if feqb a one then Ok (Real (if negate then fopp one else one))
    else
      let ix := libm_pow a iw in
      if is_inf ix then Raise OverflowError
      else Ok (Real (if negate then fopp ix else ix)).

(** [[
def compound_interest(principal, rate, time, n=1):
    amount = principal * ((1 + (rate/100)/n) ** (n * time))
    return round(amount, 2)
]] *)
Definition compound_interest (principal rate time : float) (n : Z)
    : eval float :=
  (r <- perform TrueDiv (float_truediv_int rate 100) ;;
   rn <- perform TrueDiv (float_truediv_int r n) ;;
   base <- perform Add (int_add_float 1 rn) ;;
   periods <- perform Mul (int_mul_float n time) ;;
   growth <- perform Pow (float_pow base periods) ;;
   amount <- perform Mul (Ok (float_mul_number principal growth)) ;;
   perform Round (py_round2 amount))%eval.

End Libm.

(* ===================================================================== *)
(** * The SQLite file *)
(* ===================================================================== *)

(** A row of [transactions].  The menu and [add_transaction] bind a
    [str], a [float], a [str] and a formatted time, so the columns hold
    TEXT, REAL, TEXT and TEXT. *)
Record row : Type := mk_row
  { row_id : Z;
    row_type : string;
    row_amount : float;
    row_category : string;
    row_date : string }.

(** The table: its rows in rowid order and the largest rowid it ever
    held, which AUTOINCREMENT keeps in [sqlite_sequence]. *)
Record table : Type := mk_table
  { rows : list row;
    seq : Z }.

(** [finance.db]: [None] while the table has not been created. *)
Definition database : Type := option table.

Definition empty_table : table := {| rows := []; seq := 0 |}.

Definition max_rowid (rs : list row) : Z :=
  fold_right (fun r m => Z.max (row_id r) m) 0 rs.

(** The rowid AUTOINCREMENT assigns: one more than every rowid the table
    holds or has held. *)
Definition next_rowid (t : table) : Z :=
  Z.max (max_rowid (rows t)) (seq t) + 1.

(** [INSERT INTO transactions (type, amount, category, date) VALUES
    (?, ?, ?, ?)].  SQLite binds a NaN as NULL, which [amount REAL NOT
    NULL] rejects. *)
Definition sql_insert (t : table) (ty : string) (amount : float)
    (category date : string) : result table :=
  if is_nan amount then Raise IntegrityError
  else
    let id := next_rowid t in
    Ok {| rows := rows t ++ [mk_row id ty amount category date];
          seq := id |}.

(** [SUM] over the REAL values of the selected rows, accumulated by
    double addition in rowid order: NULL when no row is selected, and NULL
    when the sum is NaN.  [fetchone()[0]] hands NULL over as [None].  This
    is the accumulator of the older releases of SQLite (3.40 is one);
    recent releases compensate the additions and can differ in the last
    place.  Both are kept apart in [engine_sum] below, and [sql_sum] is
    [sql_sum_on PlainSum]. *)
Definition sql_sum (vals : list float) : pyvalue :=
  match vals with
  | [] => PyNone
  | _ :: _ =>
      let s := fold_left fadd vals zero in
      if is_nan s then PyNone else PyFloat s
  end.

(** The rows with [type = ty], compared byte by byte. *)
Definition where_type (ty : string) (rs : list row) : list row :=
  filter (fun r => String.eqb (row_type r) ty) rs.

(** [SELECT SUM(amount) FROM transactions WHERE type = ty]. *)
Definition select_sum_amount (t : table) (ty : string) : pyvalue :=
  sql_sum (map row_amount (where_type ty (rows t))).

(* ===================================================================== *)
(** * Sections 1 to 3 of finans.py *)
(* ===================================================================== *)

(** [[
def init_db():
    ...
    cursor.execute("CREATE TABLE IF NOT EXISTS transactions (...)")
    conn.commit()
    conn.close()
]] *)
Definition init_db (db : database) : result pyvalue * database :=
  match db with
  | None => (Ok PyNone, Some empty_table)
  | Some t => (Ok PyNone, Some t)
  end.

(** [[
def add_transaction(t_type, amount, category):
    ...
    cursor.execute("INSERT INTO transactions (type, amount, category, date)
                    VALUES (?, ?, ?, ?)",
                   (t_type, amount, category, datetime.now().strftime(...)))
    conn.commit()
    conn.close()
]]
    [now] is the formatted reading of the clock.  The function has no
    [return] statement.  When [execute] raises, nothing is committed. *)
Definition add_transaction (now : string) (t_type : string) (amount : float)
    (category : string) (db : database) : result pyvalue * database :=
  match db with
  | None => (Raise OperationalError, db)
  | Some t =>
      match sql_insert t t_type amount category now with
      | Ok t' => (Ok PyNone, Some t')
      | Raise e => (Raise e, db)
      end
  end.

(** [[
    cursor.execute("SELECT SUM(amount) FROM transactions WHERE type='...'")
    total = cursor.fetchone()[0] or 0
]]
    The two statements [show_summary] runs once per kind; the
    specification calls them [sum_by_kind]. *)
Definition sum_by_kind (t : table) (kind : string) : pyvalue :=
  py_or (select_sum_amount t kind) (PyInt 0).

(** The three numbers [show_summary] prints. *)
Record summary : Type := mk_summary
  { total_income : pyvalue;
    total_expense : pyvalue;
    balance : pyvalue }.

(** [[
def show_summary():
    ...
    total_income = cursor.fetchone()[0] or 0
    ...
    total_expense = cursor.fetchone()[0] or 0
    balance = total_income - total_expense
    print(...)
]]
    A read: the file is left as it was. *)
Definition show_summary (db : database) : result summary :=
  match db with
  | None => Raise OperationalError
  | Some t =>
      let total_income := sum_by_kind t "income" in
      let total_expense := sum_by_kind t "expense" in
      bind (py_sub total_income total_expense) (fun balance =>
      Ok (mk_summary total_income total_expense balance))
  end.

(** ** Runs of the program *)

(** The calls the menu makes on the store. *)
Inductive call : Type :=
| InitDb
| AddTransaction (now t_type : string) (amount : float) (category : string).

(** The file after a call.  A call that raises leaves the file as it was.
    What is not kept is the connection such a call leaves open, since
    [conn.close()] is skipped: while that connection lives it holds its
    lock, and a later insert of the same process can fail on it.  The
    statements about runs of [add_transaction] calls are therefore made
    for runs in which every call returns ([all_return]). *)
Definition exec (db : database) (c : call) : database :=
  match c with
  | InitDb => snd (init_db db)
  | AddTransaction now ty a cat => snd (add_transaction now ty a cat db)
  end.

Definition run (cs : list call) (db : database) : database :=
  fold_left exec cs db.

(** The two kinds of the specification. *)
Definition valid_kind (k : string) : bool :=
  String.eqb k "income" || String.eqb k "expense".

Definition other_kind (k : string) : string :=
  if String.eqb k "income" then "expense" else "income".

(* ===================================================================== *)
(** * The statements of the specification *)
(* ===================================================================== *)

(** The aggregate sum of the specification: one pass over the ledger that
    adds the amount of every record of the given kind. *)
Definition aggregate_sum (kind : string) (rs : list row) : float :=
  fold_left
    (fun acc r => if String.eqb (row_type r) kind then fadd acc (row_amount r) else acc)
    rs zero.

(** A sum as the report holds it: the int [0] stands for a zero sum and
    for a sum that is not a number. *)
Definition number_or_zero (f : float) : pyvalue :=
  if is_nan f || is_zero f then PyInt 0 else PyFloat f.

(** The data model's invariant on amounts. *)
Definition amounts_nonneg (t : table) : Prop :=
  Forall (fun r => nonneg (row_amount r) = true) (rows t).

(** [append] hands back the id of the record it created. *)
Definition returns_new_id (now k : string) (a : float) (c : string)
    (t : table) : Prop :=
  exists t' r,
    add_transaction now k a c (Some t) = (Ok (PyInt (row_id r)), Some t')
    /\ rows t' = rows t ++ [r].

(** [append] fails and leaves the store as it was. *)
Definition rejected_unchanged (now k : string) (a : float) (c : string)
    (db : database) : Prop :=
  exists e, add_transaction now k a c db = (Raise e, db).

(** An evaluation that fails before any operator of the formula is
    applied. *)
Definition rejected_before_formula {A} (c : eval A) : Prop :=
  (exists e, outcome c = Raise e) /\ applied c = [].

(** An evaluation that returns. *)
Definition returns {A} (c : eval A) : Prop := exists v, outcome c = Ok v.

(** [y] is [x] rounded to two decimal places: for a finite
    [x = (-1)^s * m * 2^e] some whole number [k] of hundredths lies within
    half a hundredth of [|x|], and [y] is the double nearest to
    [(-1)^s * k / 100]. *)
Definition rounded_to_cents (x y : float) : Prop :=
  match x with
  | S754_finite s m e =>
      exists k, 0 <= k
        /\ Z.abs (2 * (Zpos m * 100 * 2 ^ Z.max e 0) - 2 * (k * 2 ^ Z.max (- e) 0))
           <= 2 ^ Z.max (- e) 0
        /\ y = hundredths s k
  | _ => y = x
  end.

(** A finite float above zero. *)
Definition positive_finite (x : float) : bool :=
  match x with S754_finite false _ _ => true | _ => false end.

Definition finite (x : float) : bool :=
  match x with S754_finite _ _ _ | S754_zero _ => true | _ => false end.

(** [b ** e] for a positive finite [b] and a finite [e]. *)
Definition positive_power (libm_pow : float -> float -> float)
    (b e : float) : float :=
  if is_zero e then one else if feqb b one then one else libm_pow b e.

(** ** A reference C library *)

(** [pow] on a positive base and a positive whole exponent, exactly
    rounded; used to run the calculators on closed inputs. *)
Definition pow_rounded (x y : float) : float :=
  match x, y with
  | S754_finite false m e, S754_finite false my ey =>
      if is_integer y then
        let k := if 0 <=? ey then Zpos my * 2 ^ ey else Zpos my / 2 ^ (- ey) in
        binary_normalize prec emax (Zpos m ^ k) (e * k) false
      else S754_nan
  | _, _ => S754_nan
  end.

Definition no_range_error (_ _ : float) : bool := false.

(** ** Monthly compounding at 5 percent for one year *)

(** [1 + (5/100)/12] and [12 * 1] as the interpreter computes them. *)
Definition monthly_base : float :=
  fadd one (fdiv (fdiv (of_Z 5) (of_Z 100)) (of_Z 12)).

Definition twelve_periods : float := fmul (of_Z 12) (of_Z 1).

(** The mantissa, at exponent [-52], of the double nearest to
    [monthly_base ^ 12]. *)
Definition pow12_mantissa : positive := 4734012331606236.

(** [libm_pow] answers within four units in the last place of the exact
    twelfth power. *)
Definition pow_within_4ulp (libm_pow : float -> float -> float) : Prop :=
  fleb (S754_finite false (pow12_mantissa - 4) (-52))
       (libm_pow monthly_base twelve_periods) = true
  /\ fleb (libm_pow monthly_base twelve_periods)
          (S754_finite false (pow12_mantissa + 4) (-52)) = true.

(* ===================================================================== *)
(** * Observations on runs *)
(* ===================================================================== *)

(** What [add_transaction] writes into a row besides its id: the clock
    reading and its three arguments. *)
Definition payload (r : row) : string * string * float * string :=
  (row_date r, row_type r, row_amount r, row_category r).

(** The payloads of the calls of a run that insert, in call order: a call
    whose amount is NaN raises and inserts nothing. *)
Definition inserted (cs : list call) : list (string * string * float * string) :=
  flat_map
    (fun c =>
       match c with
       | InitDb => []
       | AddTransaction now ty a cat =>
           if is_nan a then [] else [(now, ty, a, cat)]
       end)
    cs.

(** The amounts a run enters for a kind, in call order. *)
Definition entered (kind : string) (cs : list call) : list float :=
  map (fun p => snd (fst p))
      (filter (fun p => String.eqb (snd (fst (fst p))) kind) (inserted cs)).

Definition rowids (t : table) : list Z := map row_id (rows t).

(** The integers [1, 2, ..., n]. *)
Definition first_rowids (n : nat) : list Z := map Z.of_nat (List.seq 1 n).

(** No call of the run is [init_db]. *)
Definition no_init (cs : list call) : Prop :=
  Forall (fun c => c <> InitDb) cs.

(** A float in the form the machine holds it: a finite value has the
    mantissa and exponent of its binary64 encoding. *)
Definition is_double (x : float) : bool := valid_binary prec emax x.

(* ===================================================================== *)
(** * Section 5 of finans.py: the menu *)
(* ===================================================================== *)

(** What the menu takes from the interpreter and the machine: the parsers
    [float(s)] and [int(s)] ([None] when they raise ValueError), the
    renderings [f"{x:.2f}"] and [f"{x}"], the readings of the clock as
    [strftime] formats them, one per call of [datetime.now()], and the C
    library behind [**]. *)
Record runtime : Type := mk_runtime
  { py_float : string -> option float;
    py_int : string -> option Z;
    format_2f : pyvalue -> string;
    str_float : float -> string;
    clock : nat -> string;
    rt_pow : float -> float -> float;
    rt_cpow_range_error : float -> float -> bool }.

(** An exception no handler catches: one of the store's or the
    calculators', or one of the menu's own. *)
Inductive uncaught : Type :=
| Exn (e : exn)
| ValueError
| EOFError.

(** How the program ends: by the exit choice, or with a traceback. *)
Inductive ending : Type :=
| Exited
| Crashed (u : uncaught).

(** The state of a run of the menu: the file, the number of clock
    readings taken, and what has been written to standard output, piece by
    piece. *)
Record session : Type := mk_session
  { file : database;
    readings : nat;
    stdout : list string }.

(** One iteration of the loop either goes on with the lines left to read
    or ends the program. *)
Inductive progress : Type :=
| Continue (rest : list string) (s : session)
| Stop (e : ending) (s : session).

Definition newline : string := String (Ascii.ascii_of_N 10) EmptyString.

(** The bytes of a character outside ASCII, in front of [rest]. *)
Definition utf8 (bytes : list Z) (rest : string) : string :=
  fold_right (fun b s => String (Ascii.ascii_of_N (Z.to_N b)) s) rest bytes.

Definition write (text : string) (s : session) : session :=
  {| file := file s; readings := readings s; stdout := stdout s ++ [text] |}.

(** [print(line)]. *)
Definition py_print (line : string) (s : session) : session :=
  write (line ++ newline)%string s.

Definition print_all (lines : list string) (s : session) : session :=
  fold_left (fun s line => py_print line s) lines s.

(** The seven lines printed at the top of every iteration. *)
Definition menu_lines : list string :=
  [ (newline ++ "===== Financial Tracker =====")%string;
    "1. Add Income";
    "2. Add Expense";
    "3. Show Summary Report";
    "4. Calculate Simple Interest";
    "5. Calculate Compound Interest";
    "6. Exit" ].

(** The five lines [show_summary] prints. *)
Definition summary_lines (rt : runtime) (sm : summary) : list string :=
  [ (newline ++ utf8 [240; 159; 146; 176] " Financial Overview")%string;
    "---------------------";
    ("Total Income: " ++ format_2f rt (total_income sm) ++ " TL")%string;
    ("Total Expense: " ++ format_2f rt (total_expense sm) ++ " TL")%string;
    ("Remaining Balance: " ++ format_2f rt (balance sm) ++ " TL")%string ].

(** [add_transaction(kind, amount, category)] as the menu calls it: the
    clock is read once, whether or not the insert goes through. *)
Definition add_from_menu (rt : runtime) (kind : string) (amount : float)
    (category : string) (s : session) : result pyvalue * session :=
  let (r, db) :=
    add_transaction (clock rt (readings s)) kind amount category (file s) in
  (r, {| file := db; readings := S (readings s); stdout := stdout s |}).

Section MenuBody.

Variable rt : runtime.

(** What follows an iteration: [continue] is the next iteration, [stop]
    the end of the program. *)
Context {A : Type}.
Variable continue : list string -> session -> A.
Variable stop : ending -> session -> A.

(** [input(prompt)]: the prompt is written, then a line is read;
    EOFError when none is left. *)
Definition py_input (prompt : string) (inputs : list string) (s : session)
    (k : string -> list string -> session -> A) : A :=
  let s := write prompt s in
  match inputs with
  | [] => stop (Crashed EOFError) s
  | line :: rest => k line rest s
  end.

(** [float(input(prompt))]. *)
Definition input_float (prompt : string) (inputs : list string) (s : session)
    (k : float -> list string -> session -> A) : A :=
  py_input prompt inputs s (fun line rest s =>
    match py_float rt line with
    | Some x => k x rest s
    | None => stop (Crashed ValueError) s
    end).

(** [int(input(prompt))]. *)
Definition input_int (prompt : string) (inputs : list string) (s : session)
    (k : Z -> list string -> session -> A) : A :=
  py_input prompt inputs s (fun line rest s =>
    match py_int rt line with
    | Some n => k n rest s
    | None => stop (Crashed ValueError) s
    end).

(** Choices 1 and 2. *)
Definition add_entry (kind asking added : string) (inputs : list string)
    (s : session) : A :=
  input_float asking inputs s (fun amount rest s =>
  py_input "Category: " rest s (fun category rest s =>
    match add_from_menu rt kind amount category s with
    | (Ok _, s) => continue rest (py_print added s)
    | (Raise e, s) => stop (Crashed (Exn e)) s
    end)).

(** The three floats choices 4 and 5 ask for. *)
Definition input_terms (inputs : list string) (s : session)
    (k : float -> float -> float -> list string -> session -> A) : A :=
  input_float "Principal (P): " inputs s (fun p rest s =>
  input_float "Interest Rate (%): " rest s (fun r rest s =>
  input_float "Time (years): " rest s (fun t rest s =>
    k p r t rest s))).

(** Printing the amount a calculator returned, or ending on what it
    raised. *)
Definition report (label : string) (computed : eval float)
    (rest : list string) (s : session) : A :=
  match outcome computed with
  | Ok result =>
      continue rest
        (py_print (utf8 [240; 159; 147; 138] label ++ str_float rt result ++ " TL")%string s)
  | Raise e => stop (Crashed (Exn e)) s
  end.

(** The body of [while True:] in [main]. *)
Definition menu_body (inputs : list string) (s : session) : A :=
  let s := print_all menu_lines s in
  py_input "Your choice: " inputs s (fun choice rest s =>
    if String.eqb choice "1" then
      add_entry "income" "Income amount: "
        (utf8 [226; 156; 133] " Income added!") rest s
    else if String.eqb choice "2" then
      add_entry "expense" "Expense amount: "
        (utf8 [226; 156; 133] " Expense added!") rest s
    else if String.eqb choice "3" then
      match show_summary (file s) with
      | Ok sm => continue rest (print_all (summary_lines rt sm) s)
      | Raise e => stop (Crashed (Exn e)) s
      end
    else if String.eqb choice "4" then
      input_terms rest s (fun p r t rest s =>
        report " Simple Interest Result: " (simple_interest p r t) rest s)
    else if String.eqb choice "5" then
      input_terms rest s (fun p r t rest s =>
      input_int "Times interest is compounded per year (e.g., 12 for monthly): "
        rest s (fun n rest s =>
        report " Compound Interest Result: "
          (compound_interest (rt_pow rt) (rt_cpow_range_error rt) p r t n)
          rest s))
    else if String.eqb choice "6" then
      stop Exited (py_print (utf8 [240; 159; 145; 139] " Exiting...") s)
    else
      continue rest (py_print (utf8 [226; 154; 160] " Invalid choice!") s)).

End MenuBody.

(** The loop of [main], reading the lines typed at the keyboard. *)
Fixpoint main_loop (rt : runtime) (inputs : list string) (s : session)
    {struct inputs} : ending * session :=
  menu_body rt (fun rest s' => main_loop rt rest s') (fun e s' => (e, s'))
    inputs s.

(** [[
def main():
    init_db()
    while True:
        ...
]] *)
Definition main (rt : runtime) (inputs : list string) (db : database)
    : ending * session :=
  match init_db db with
  | (Ok _, db') => main_loop rt inputs (mk_session db' 0%nat [])
  | (Raise e, db') => (Crashed (Exn e), mk_session db' 0%nat [])
  end.

(** One iteration, on its own. *)
Definition menu_step (rt : runtime) (inputs : list string) (s : session)
    : progress :=
  menu_body rt Continue Stop inputs s.

(** What the menu can add to a table: rows of kind income or expense whose
    amount is a number. *)
Definition menu_rows (added : list row) : Prop :=
  Forall (fun r => valid_kind (row_type r) = true /\ is_nan (row_amount r) = false)
         added.

(** The file holds [t]'s rows followed by rows the menu can add. *)
Definition extends (t : table) (db : database) : Prop :=
  exists t' added,
    db = Some t' /\ rows t' = rows t ++ added /\ menu_rows added.

(** A reference runtime for closed examples: it parses the lines of the
    example only. *)
Definition example_runtime : runtime :=
  {| py_float := fun line =>
       if String.eqb line "250" then Some (of_Z 250)
       else if String.eqb line "1000" then Some (of_Z 1000)
       else if String.eqb line "5" then Some (of_Z 5)
       else if String.eqb line "1" then Some (of_Z 1)
       else if String.eqb line "nan" then Some S754_nan
       else None;
     py_int := fun line => if String.eqb line "0" then Some 0 else None;
     format_2f := fun _ => "";
     str_float := fun _ => "";
     clock := fun _ => "2025-03-01 09:30:00";
     rt_pow := pow_rounded;
     rt_cpow_range_error := no_range_error |}.

(* ===================================================================== *)
(** * The accumulator of SUM *)
(* ===================================================================== *)

(** [finans.py] runs on whatever SQLite the interpreter is linked with,
    and the releases differ in how SUM adds REAL values.  The older ones
    add each value to a running double ([sql_sum] above).  The recent
    ones keep, next to the running double, a Kahan-Babuska-Neumaier error
    term, which is added at the end. *)
Inductive engine : Type :=
| PlainSum
| CompensatedSum.

(** One step of the compensated sum: the running sum [s] and the error
    term [err] after the value [r]. *)
Definition kbn_step (acc : float * float) (r : float) : float * float :=
  let (s, err) := acc in
  let t := fadd s r in
  (t,
   fadd err
     (if fltb (fabs r) (fabs s)
      then fadd (fsub s t) r
      else fadd (fsub r t) s)).

(** NaN or an infinity. *)
Definition is_overflow (x : float) : bool := is_nan x || is_inf x.

(** The compensated sum of the values: the error term is left out when it
    is not finite. *)
Definition kbn_sum (vals : list float) : float :=
  let (s, err) := fold_left kbn_step vals (zero, zero) in
  if is_overflow err then s else fadd s err.

(** What SUM accumulates over the selected values, in rowid order. *)
Definition engine_sum (e : engine) (vals : list float) : float :=
  match e with
  | PlainSum => fold_left fadd vals zero
  | CompensatedSum => kbn_sum vals
  end.

(** [sql_sum] on either engine. *)
Definition sql_sum_on (e : engine) (vals : list float) : pyvalue :=
  match vals with
  | [] => PyNone
  | _ :: _ =>
      let s := engine_sum e vals in
      if is_nan s then PyNone else PyFloat s
  end.

(** The amounts of the records of a kind, in rowid order. *)
Definition amounts_of (kind : string) (t : table) : list float :=
  map row_amount (where_type kind (rows t)).

(** [sum_by_kind] and [show_summary] on either engine. *)
Definition sum_by_kind_on (e : engine) (t : table) (kind : string) : pyvalue :=
  py_or (sql_sum_on e (amounts_of kind t)) (PyInt 0).

Definition show_summary_on (e : engine) (db : database) : result summary :=
  match db with
  | None => Raise OperationalError
  | Some t =>
      let total_income := sum_by_kind_on e t "income" in
      let total_expense := sum_by_kind_on e t "expense" in
      bind (py_sub total_income total_expense) (fun balance =>
      Ok (mk_summary total_income total_expense balance))
  end.

(** The total [v] is the sum [f]: the float itself, or the int [0] for a
    sum of zero. *)
Definition holds_sum (v : pyvalue) (f : float) : Prop :=
  v = PyFloat f \/ (is_zero f = true /\ v = PyInt 0).

(** C1 as the specification states it: the append returns, the sum of
    the kind afterwards compares equal to the former sum plus the amount,
    and the sum of the other kind is what it was. *)
Definition sum_rises_by_amount (e : engine) (now k : string) (a : float)
    (c : string) (t : table) : Prop :=
  exists t' v,
    add_transaction now k a c (Some t) = (Ok PyNone, Some t')
    /\ py_add (sum_by_kind_on e t k) (PyFloat a) = Ok v
    /\ py_eq (sum_by_kind_on e t' k) v = true
    /\ sum_by_kind_on e t' (other_kind k) = sum_by_kind_on e t (other_kind k).

(** C2 as the specification states it: the report's totals are the
    aggregate sums of the two kinds and its balance is exactly the sum of
    the incomes minus the sum of the expenses. *)
Definition balance_of_aggregate_sums (e : engine) (t : table) : Prop :=
  exists s,
    show_summary_on e (Some t) = Ok s
    /\ holds_sum (total_income s) (engine_sum e (amounts_of "income" t))
    /\ holds_sum (total_expense s) (engine_sum e (amounts_of "expense" t))
    /\ holds_sum (balance s)
         (fsub (engine_sum e (amounts_of "income" t))
               (engine_sum e (amounts_of "expense" t))).

Definition plus_infinity : float := S754_infinity false.
Definition minus_infinity : float := S754_infinity true.

(** The sum the report counts: a sum that is not a number comes back from
    SUM as NULL, and [or 0] counts it as 0. *)
Definition zero_if_nan (f : float) : float := if is_nan f then zero else f.

(** A ledger with an income of 1000.5 and an expense of 250.25. *)
Definition salary_and_rent : table :=
  {| rows := [mk_row 1 "income" (of_ratio 10005 10) "salary" "2025-03-01 09:30:00";
              mk_row 2 "expense" (of_ratio 25025 100) "rent" "2025-03-02 10:00:00"];
     seq := 2 |}.

(** The ledger after incomes of 0.1 and 0.2. *)
Definition tenth_and_fifth : table :=
  {| rows := [mk_row 1 "income" (of_ratio 1 10) "a" "2025-03-01 09:30:00";
              mk_row 2 "income" (of_ratio 2 10) "b" "2025-03-02 10:00:00"];
     seq := 2 |}.

(** The ledger after an income of [-inf]. *)
Definition minus_infinity_income : table :=
  {| rows := [mk_row 1 "income" minus_infinity "a" "2025-03-01 09:30:00"];
     seq := 1 |}.

(** The ledger after an income of [inf] and an income of [-inf]. *)
Definition opposite_infinities : table :=
  {| rows := [mk_row 1 "income" plus_infinity "a" "2025-03-01 09:30:00";
              mk_row 2 "income" minus_infinity "b" "2025-03-02 10:00:00"];
     seq := 2 |}.

(** On a file that has the table every call of the run returns: no
    amount is NaN, the one value the NOT NULL column refuses. *)
Definition all_return (cs : list call) : Prop :=
  Forall
    (fun c =>
       match c with
       | InitDb => True
       | AddTransaction _ _ a _ => is_nan a = false
       end)
    cs.

(* ===================================================================== *)
(** * Facts about binary64 arithmetic *)
(* ===================================================================== *)

Lemma nonneg_fleb (x : float) : nonneg x = fleb zero x.
Proof. destruct x as [s|s| |s m e]; try destruct s; reflexivity. Qed.

Lemma nonneg_not_nan (x : float) : nonneg x = true -> is_nan x = false.
Proof. destruct x; simpl; congruence. Qed.

Lemma feqb_refl (x : float) : is_nan x = false -> feqb x x = true.
Proof.
  unfold feqb, SFeqb.
  destruct x as [s|s| |s m e]; simpl; try destruct s; try congruence;
    intros _; rewrite Z.compare_refl, Pos.compare_cont_refl; reflexivity.
Qed.

(** Shifting a non-negative mantissa right keeps it non-negative, so
    rounding a non-negative magnitude never lands on the NaN case of
    [binary_round_aux]. *)
Lemma shr_1_nonneg (mrs : shr_record) :
  0 <= shr_m mrs -> 0 <= shr_m (shr_1 mrs).
Proof.
  destruct mrs as [m r s]; destruct m as [|p|p]; simpl; try lia;
    destruct p; simpl; lia.
Qed.

Lemma iter_shr_1_nonneg (p : positive) : forall mrs,
  0 <= shr_m mrs -> 0 <= shr_m (iter_pos shr_1 p mrs).
Proof.
  induction p as [p IH|p IH|]; simpl; intros mrs H.
  - apply IH, IH, shr_1_nonneg, H.
  - apply IH, IH, H.
  - apply shr_1_nonneg, H.
Qed.

Lemma shr_fexp_nonneg (m e : Z) (l : location) :
  0 <= m -> 0 <= shr_m (fst (shr_fexp prec emax m e l)).
Proof.
  intros Hm. unfold shr_fexp, shr.
  assert (H0 : 0 <= shr_m (shr_record_of_loc m l))
    by (destruct l as [|[]]; exact Hm).
  destruct (fexp prec emax (Zdigits2 m + e) - e); simpl; auto.
  apply iter_shr_1_nonneg, H0.
Qed.

Lemma round_nearest_even_nonneg (m : Z) (l : location) :
  0 <= m -> 0 <= round_nearest_even m l.
Proof.
  intros Hm. destruct l as [|[]]; simpl; try lia.
  destruct (Z.even m); lia.
Qed.

Lemma binary_round_aux_nonneg (m e : Z) (l : location) :
  0 <= m -> nonneg (binary_round_aux prec emax false m e l) = true.
Proof.
  intros Hm. unfold binary_round_aux.
  pose proof (shr_fexp_nonneg m e l Hm) as H1.
  destruct (shr_fexp prec emax m e l) as [mrs1 e1]; simpl in H1.
  pose proof (shr_fexp_nonneg _ e1 loc_Exact
                (round_nearest_even_nonneg _ (loc_of_shr_record mrs1) H1)) as H2.
  destruct (shr_fexp prec emax _ e1 loc_Exact) as [mrs2 e2]; simpl in H2.
  destruct (shr_m mrs2) as [|p|p]; try reflexivity.
  - destruct (e2 <=? emax - prec); reflexivity.
  - lia.
Qed.

(** [iter_pos shr_1 p] divides a non-negative mantissa by [2^p]. *)
Lemma shr_1_div2 (mrs : shr_record) :
  0 <= shr_m mrs -> shr_m (shr_1 mrs) = shr_m mrs / 2.
Proof.
  destruct mrs as [m r s]; destruct m as [|p|p]; simpl shr_m at 1; intros H.
  - reflexivity.
  - destruct p as [p|p|]; simpl shr_m.
    + rewrite Pos2Z.inj_xI. apply Z.div_unique with (r := 1); lia.
    + rewrite Pos2Z.inj_xO. apply Z.div_unique with (r := 0); lia.
    + reflexivity.
  - lia.
Qed.

Lemma iter_shr_1_div (p : positive) : forall mrs,
  0 <= shr_m mrs ->
  shr_m (iter_pos shr_1 p mrs) = shr_m mrs / 2 ^ Zpos p.
Proof.
  assert (P : forall q : positive, 0 < 2 ^ Z.pos q)
    by (intros; apply Z.pow_pos_nonneg; lia).
  induction p as [p IH|p IH|]; simpl iter_pos; intros mrs H.
  - rewrite IH by (apply iter_shr_1_nonneg, shr_1_nonneg, H).
    rewrite IH by (apply shr_1_nonneg, H).
    rewrite shr_1_div2 by exact H.
    pose proof (P p).
    rewrite !Z.div_div by lia.
    f_equal. change (Z.pos p~1) with (2 * Z.pos p + 1).
    replace (2 * Z.pos p + 1) with (1 + (Z.pos p + Z.pos p)) by lia.
    rewrite Z.pow_add_r by lia. rewrite Z.pow_add_r by lia. 
    rewrite Z.pow_1_r. lia.
  - rewrite IH by (apply iter_shr_1_nonneg, H).
    rewrite IH by exact H.
    pose proof (P p).
    rewrite Z.div_div by lia.
    f_equal. change (Z.pos p~0) with (2 * Z.pos p).
    replace (2 * Z.pos p) with (Z.pos p + Z.pos p) by lia.
    rewrite Z.pow_add_r by lia. reflexivity.
  - rewrite shr_1_div2 by exact H. reflexivity.
Qed.

(** A mantissa of [d] binary digits is at least [2^(d-1)]. *)
Lemma digits2_pos_lower (m : positive) :
  2 ^ (Zpos (digits2_pos m) - 1) <= Zpos m.
Proof.
  induction m as [m IH|m IH|]; simpl digits2_pos.
  - rewrite Pos2Z.inj_succ. change (Z.pos m~1) with (2 * Z.pos m + 1).
    replace (Z.succ (Z.pos (digits2_pos m)) - 1)
      with (1 + (Z.pos (digits2_pos m) - 1)) by lia.
    rewrite Z.pow_add_r by lia. lia.
  - rewrite Pos2Z.inj_succ. change (Z.pos m~0) with (2 * Z.pos m).
    replace (Z.succ (Z.pos (digits2_pos m)) - 1)
      with (1 + (Z.pos (digits2_pos m) - 1)) by lia.
    rewrite Z.pow_add_r by lia. lia.
  - simpl. lia.
Qed.

(** Above the smallest exponent a positive mantissa is never shifted
    down to zero. *)
Lemma shr_fexp_pos (m e : Z) (l : location) :
  0 < m -> emin prec emax <= e ->
  0 < shr_m (fst (shr_fexp prec emax m e l))
  /\ emin prec emax <= snd (shr_fexp prec emax m e l).
Proof.
  intros Hm He. unfold shr_fexp, shr.
  assert (H0 : shr_m (shr_record_of_loc m l) = m) by (destruct l as [|[]]; reflexivity).
  destruct m as [|p|p]; try lia.
  pose proof (digits2_pos_lower p) as D.
  unfold Zdigits2.
  destruct (fexp prec emax (Z.pos (digits2_pos p) + e) - e) as [|n|n] eqn:En;
    simpl fst; simpl snd; try (rewrite H0; split; lia).
  rewrite iter_shr_1_div by (rewrite H0; lia). rewrite H0.
  assert (Hn : Z.pos n <= Z.pos (digits2_pos p) - 1).
  { unfold fexp, emin, prec, emax in *. lia. }
  split; [|lia].
  apply Z.div_str_pos. split; [apply Z.pow_pos_nonneg; lia|].
  eapply Z.le_trans; [|exact D]. apply Z.pow_le_mono_r; lia.
Qed.

Lemma binary_round_aux_nonzero (s : bool) (m e : Z) (l : location) :
  0 < m -> emin prec emax <= e ->
  is_zero (binary_round_aux prec emax s m e l) = false.
Proof.
  intros Hm He. unfold binary_round_aux.
  destruct (shr_fexp_pos m e l Hm He) as [H1 E1].
  destruct (shr_fexp prec emax m e l) as [mrs1 e1]; simpl in H1, E1.
  assert (H1' : 0 < round_nearest_even (shr_m mrs1) (loc_of_shr_record mrs1)).
  { destruct (loc_of_shr_record mrs1) as [|[]]; simpl; try lia.
    destruct (Z.even (shr_m mrs1)); lia. }
  destruct (shr_fexp_pos _ e1 loc_Exact H1' E1) as [H2 _].
  destruct (shr_fexp prec emax _ e1 loc_Exact) as [mrs2 e2]; simpl in H2.
  destruct (shr_m mrs2) as [|p|p]; try lia; try reflexivity.
  destruct (e2 <=? emax - prec); reflexivity.
Qed.

(** [float(n)] of a non-zero int is not zero. *)
Lemma of_Z_nonzero (n : Z) : n <> 0 -> is_zero (of_Z n) = false.
Proof.
  intros Hn. unfold of_Z, binary_normalize.
  assert (R : forall s m, is_zero (binary_round prec emax s m 0) = false).
  { intros s m. unfold binary_round, shl_align.
    destruct (fexp prec emax (Z.pos (digits2_pos m) + 0) - 0) as [|k|k] eqn:E;
      apply binary_round_aux_nonzero; try lia;
      unfold fexp, emin, prec, emax in *; lia. }
  destruct n as [|m|m]; [contradiction| |]; apply R.
Qed.

Lemma fadd_nonneg (x y : float) :
  nonneg x = true -> nonneg y = true -> nonneg (fadd x y) = true.
Proof.
  destruct x as [sx|sx| |sx mx ex]; destruct y as [sy|sy| |sy my ey];
    simpl; try congruence; try (destruct sx; destruct sy; simpl; congruence).
  destruct sx; destruct sy; simpl; try congruence. intros _ _.
  unfold binary_round.
  match goal with
  | |- context [shl_align ?a ?b ?c] => destruct (shl_align a b c) as [mz ez]
  end.
  apply binary_round_aux_nonneg; lia.
Qed.

Lemma fold_fadd_nonneg (vals : list float) : forall acc,
  nonneg acc = true ->
  Forall (fun v => nonneg v = true) vals ->
  nonneg (fold_left fadd vals acc) = true.
Proof.
  induction vals as [|v vals IH]; simpl; intros acc Hacc Hall; auto.
  inversion Hall; subst. apply IH; auto using fadd_nonneg.
Qed.

Lemma feqb_zero (x : float) : feqb x zero = is_zero x.
Proof. destruct x as [s|s| |s m e]; try destruct s; reflexivity. Qed.

(* ===================================================================== *)
(** * Facts about the store *)
(* ===================================================================== *)

Lemma where_type_app (k : string) (l1 l2 : list row) :
  where_type k (l1 ++ l2) = where_type k l1 ++ where_type k l2.
Proof. apply filter_app. Qed.

Lemma aggregate_sum_fold (kind : string) (rs : list row) : forall acc,
  fold_left
    (fun acc r => if String.eqb (row_type r) kind then fadd acc (row_amount r) else acc)
    rs acc
  = fold_left fadd (map row_amount (where_type kind rs)) acc.
Proof.
  induction rs as [|r rs IH]; intros acc; simpl; [reflexivity|].
  destruct (String.eqb (row_type r) kind); simpl; apply IH.
Qed.

Lemma aggregate_sum_app (kind : string) (rs : list row) (r : row) :
  aggregate_sum kind (rs ++ [r])
  = if String.eqb (row_type r) kind
    then fadd (aggregate_sum kind rs) (row_amount r)
    else aggregate_sum kind rs.
Proof. unfold aggregate_sum. rewrite fold_left_app. reflexivity. Qed.

(** The query followed by [or 0] is the aggregate sum of the kind. *)
Lemma sum_by_kind_aggregate (t : table) (kind : string) :
  sum_by_kind t kind = number_or_zero (aggregate_sum kind (rows t)).
Proof.
  unfold sum_by_kind, select_sum_amount, aggregate_sum.
  rewrite aggregate_sum_fold.
  destruct (map row_amount (where_type kind (rows t))) as [|v vals] eqn:E;
    [reflexivity|].
  unfold sql_sum, number_or_zero.
  destruct (is_nan (fold_left fadd (v :: vals) zero)) eqn:N; [reflexivity|].
  unfold py_or, truthy. rewrite feqb_zero. simpl.
  destruct (is_zero _); reflexivity.
Qed.

Lemma aggregate_sum_nonneg (kind : string) (t : table) :
  amounts_nonneg t -> nonneg (aggregate_sum kind (rows t)) = true.
Proof.
  unfold amounts_nonneg, aggregate_sum. intros H.
  rewrite aggregate_sum_fold. apply fold_fadd_nonneg; [reflexivity|].
  apply Forall_forall. intros v Hv.
  apply in_map_iff in Hv. destruct Hv as (r & <- & Hr).
  apply filter_In in Hr. destruct Hr as [Hr _].
  rewrite Forall_forall in H. auto.
Qed.

Lemma max_rowid_ge (rs : list row) (r : row) :
  In r rs -> row_id r <= max_rowid rs.
Proof.
  induction rs as [|r0 rs IH]; simpl; [tauto|].
  intros [->|H]; [lia|]. specialize (IH H). lia.
Qed.

Lemma add_transaction_number (now k : string) (a : float) (c : string) (t : table) :
  is_nan a = false ->
  add_transaction now k a c (Some t)
  = (Ok PyNone,
     Some {| rows := rows t ++ [mk_row (next_rowid t) k a c now];
             seq := next_rowid t |}).
Proof. intros H. unfold add_transaction, sql_insert. rewrite H. reflexivity. Qed.

Lemma add_transaction_nan (now k : string) (a : float) (c : string) (db : database) :
  is_nan a = true ->
  add_transaction now k a c db
  = (match db with None => Raise OperationalError | Some _ => Raise IntegrityError end,
     db).
Proof.
  intros H. destruct db as [t|]; [|reflexivity].
  unfold add_transaction, sql_insert. rewrite H. reflexivity.
Qed.

Lemma init_db_table (db : database) : exists t, snd (init_db db) = Some t.
Proof. destruct db; simpl; eauto. Qed.

(** A call never removes the table. *)
Lemma exec_table (c : call) (t : table) : exists t', exec (Some t) c = Some t'.
Proof.
  destruct c as [|now k a cat]; unfold exec; [apply init_db_table|].
  destruct (is_nan a) eqn:N.
  - rewrite add_transaction_nan by assumption. simpl. eauto.
  - rewrite add_transaction_number by assumption. simpl. eauto.
Qed.

Lemma run_table (cs : list call) : forall t, exists t', run cs (Some t) = Some t'.
Proof.
  induction cs as [|c cs IH]; intros t; simpl; [eauto|].
  destruct (exec_table c t) as [t1 ->]. apply IH.
Qed.

Lemma sum_by_kind_insert (t : table) (ty : string) (a : float)
    (c d kind : string) (sq : Z) :
  sum_by_kind {| rows := rows t ++ [mk_row (next_rowid t) ty a c d]; seq := sq |} kind
  = if String.eqb ty kind
    then number_or_zero (fadd (aggregate_sum kind (rows t)) a)
    else sum_by_kind t kind.
Proof.
  rewrite !sum_by_kind_aggregate. simpl rows. rewrite aggregate_sum_app. simpl.
  destruct (String.eqb ty kind); reflexivity.
Qed.

(** A failed or foreign-kind append leaves each aggregate sum alone. *)
Lemma sum_by_kind_add_other (now ty : string) (a : float) (c : string)
    (t : table) (kind : string) :
  String.eqb ty kind = false ->
  exists t', snd (add_transaction now ty a c (Some t)) = Some t'
             /\ sum_by_kind t' kind = sum_by_kind t kind.
Proof.
  intros Hk. destruct (is_nan a) eqn:N.
  - rewrite add_transaction_nan by assumption. simpl. eauto.
  - rewrite add_transaction_number by assumption. simpl.
    eexists; split; [reflexivity|]. rewrite sum_by_kind_insert, Hk. reflexivity.
Qed.

Lemma number_or_zero_self (x : float) :
  is_nan x = false -> py_eq (number_or_zero x) (PyFloat x) = true.
Proof.
  intros N. unfold number_or_zero. rewrite N. simpl.
  destruct (is_zero x) eqn:Z0; simpl.
  - destruct x; simpl in *; congruence.
  - apply feqb_refl, N.
Qed.

Lemma valid_kind_cases (k : string) :
  valid_kind k = true -> k = "income" \/ k = "expense".
Proof.
  unfold valid_kind. intros H. apply orb_true_iff in H.
  destruct H as [H|H]; apply String.eqb_eq in H; auto.
Qed.

Lemma other_kind_differs (k : string) :
  valid_kind k = true -> String.eqb k (other_kind k) = false.
Proof.
  intros H. destruct (valid_kind_cases k H) as [-> | ->]; reflexivity.
Qed.

(* ===================================================================== *)
(** * The ledger: theorems *)
(* ===================================================================== *)

Lemma engine_sum_nil (e : engine) : engine_sum e [] = zero.
Proof. destruct e; reflexivity. Qed.

(** The query followed by [or 0], on either engine. *)
Lemma sum_by_kind_on_sum (e : engine) (t : table) (kind : string) :
  sum_by_kind_on e t kind = number_or_zero (engine_sum e (amounts_of kind t)).
Proof.
  unfold sum_by_kind_on, sql_sum_on.
  destruct (amounts_of kind t) as [|v vals] eqn:E.
  - rewrite engine_sum_nil. reflexivity.
  - unfold number_or_zero.
    destruct (is_nan (engine_sum e (v :: vals))) eqn:N; [reflexivity|].
    unfold py_or, truthy. rewrite feqb_zero. simpl.
    destruct (is_zero _); reflexivity.
Qed.

Lemma sum_by_kind_on_plain (t : table) (kind : string) :
  sum_by_kind_on PlainSum t kind = sum_by_kind t kind.
Proof. reflexivity. Qed.

Lemma show_summary_on_plain (db : database) :
  show_summary_on PlainSum db = show_summary db.
Proof. reflexivity. Qed.

Lemma amounts_of_insert (t : table) (ty : string) (a : float)
    (c d kind : string) (sq : Z) :
  amounts_of kind
    {| rows := rows t ++ [mk_row (next_rowid t) ty a c d]; seq := sq |}
  = amounts_of kind t ++ (if String.eqb ty kind then [a] else []).
Proof.
  unfold amounts_of. simpl rows. rewrite where_type_app, map_app. simpl.
  destruct (String.eqb ty kind); reflexivity.
Qed.

Lemma plain_sum_snoc (vals : list float) (a : float) :
  engine_sum PlainSum (vals ++ [a]) = fadd (engine_sum PlainSum vals) a.
Proof. simpl. rewrite fold_left_app. reflexivity. Qed.

Lemma plain_sum_aggregate (kind : string) (t : table) :
  engine_sum PlainSum (amounts_of kind t) = aggregate_sum kind (rows t).
Proof. unfold aggregate_sum. rewrite aggregate_sum_fold. reflexivity. Qed.

(** Rounding a non-negative mantissa gives a number, whatever the sign. *)
Lemma binary_round_aux_not_nan (s : bool) (m e : Z) (l : location) :
  0 <= m -> is_nan (binary_round_aux prec emax s m e l) = false.
Proof.
  intros Hm. unfold binary_round_aux.
  pose proof (shr_fexp_nonneg m e l Hm) as H1.
  destruct (shr_fexp prec emax m e l) as [mrs1 e1]; simpl in H1.
  pose proof (shr_fexp_nonneg _ e1 loc_Exact
                (round_nearest_even_nonneg _ (loc_of_shr_record mrs1) H1)) as H2.
  destruct (shr_fexp prec emax _ e1 loc_Exact) as [mrs2 e2]; simpl in H2.
  destruct (shr_m mrs2) as [|p|p]; try reflexivity.
  - destruct (e2 <=? emax - prec); reflexivity.
  - lia.
Qed.

(** A number plus a finite number is a number. *)
Lemma fadd_finite_number (x y : float) :
  is_nan x = false -> finite y = true -> is_nan (fadd x y) = false.
Proof.
  destruct x as [sx|sx| |sx mx ex]; destruct y as [sy|sy| |sy my ey];
    simpl; try congruence; try (destruct sx; destruct sy; simpl; congruence).
  intros _ _. unfold binary_normalize.
  match goal with
  | |- is_nan (match ?z with _ => _ end) = false => destruct z
  end; try reflexivity; unfold binary_round;
  match goal with
  | |- context [shl_align ?a ?b ?c] => destruct (shl_align a b c) as [mz ez]
  end; apply binary_round_aux_not_nan; lia.
Qed.

(** The running sum of the compensated SUM is the plain sum. *)
Lemma kbn_running_sum (vals : list float) : forall acc,
  fst (fold_left kbn_step vals acc) = fold_left fadd vals (fst acc).
Proof.
  induction vals as [|v vals IH]; intros [s err]; [reflexivity|].
  simpl fold_left. rewrite IH. reflexivity.
Qed.

(** The compensated sum is a number whenever the plain sum is. *)
Lemma engine_sum_number (e : engine) (vals : list float) :
  is_nan (engine_sum PlainSum vals) = false ->
  is_nan (engine_sum e vals) = false.
Proof.
  destruct e; [auto|]. simpl. intros N. unfold kbn_sum.
  pose proof (kbn_running_sum vals (zero, zero)) as R.
  destruct (fold_left kbn_step vals (zero, zero)) as [s err].
  simpl in R. subst s.
  destruct (is_overflow err) eqn:O; [exact N|].
  apply fadd_finite_number; [exact N|].
  destruct err; simpl in O; try discriminate O; reflexivity.
Qed.

(** On a ledger whose amounts are non-negative every sum is a number. *)
Lemma engine_sum_nonneg_number (e : engine) (kind : string) (t : table) :
  amounts_nonneg t -> is_nan (engine_sum e (amounts_of kind t)) = false.
Proof.
  intros Ht. apply engine_sum_number. rewrite plain_sum_aggregate.
  apply nonneg_not_nan, aggregate_sum_nonneg, Ht.
Qed.

(** C1, as the code has it.  [add_transaction] with a valid kind and a
    non-negative amount returns and appends the record.  On either engine
    the sum of the other kind is what it was, and the sum of the kind is
    the engine's sum of the former amounts followed by the new one, with
    0 in its place when that is zero or is not a number.  When SUM adds
    with plain double addition and the sum after the append is a number,
    that sum compares equal ([==]) to the former sum plus the amount, as
    the specification states; this is so on every ledger whose amounts
    are non-negative. *)
Theorem append_adds_amount_to_its_kind
    (now k : string) (a : float) (c : string) (t : table) :
  valid_kind k = true ->
  nonneg a = true ->
  (exists t',
      add_transaction now k a c (Some t) = (Ok PyNone, Some t')
      /\ rows t' = rows t ++ [mk_row (next_rowid t) k a c now]
      /\ (forall e,
            sum_by_kind_on e t' (other_kind k)
            = sum_by_kind_on e t (other_kind k))
      /\ (forall e,
            sum_by_kind_on e t' k
            = number_or_zero (engine_sum e (amounts_of k t ++ [a]))))
  /\ (is_nan (fadd (engine_sum PlainSum (amounts_of k t)) a) = false ->
      sum_rises_by_amount PlainSum now k a c t)
  /\ (amounts_nonneg t -> sum_rises_by_amount PlainSum now k a c t).
Proof.
  intros Hk Ha.
  pose proof (nonneg_not_nan a Ha) as Na.
  assert (Other : forall e sq,
             sum_by_kind_on e
               {| rows := rows t ++ [mk_row (next_rowid t) k a c now]; seq := sq |}
               (other_kind k)
             = sum_by_kind_on e t (other_kind k)).
  { intros e sq. rewrite !sum_by_kind_on_sum, amounts_of_insert.
    rewrite (other_kind_differs k Hk), app_nil_r. reflexivity. }
  assert (Rises : is_nan (fadd (engine_sum PlainSum (amounts_of k t)) a) = false ->
                  sum_rises_by_amount PlainSum now k a c t).
  { intros N. unfold sum_rises_by_amount.
    rewrite add_transaction_number by assumption.
    exists {| rows := rows t ++ [mk_row (next_rowid t) k a c now];
              seq := next_rowid t |}.
    rewrite Other.
    rewrite !sum_by_kind_on_sum, amounts_of_insert, String.eqb_refl, plain_sum_snoc.
    destruct (engine_sum PlainSum (amounts_of k t)) as [s|s| |s m e].
    - exists (PyFloat (fadd zero a)). repeat split.
      destruct a as [sa|sa| |sa ma ea]; try discriminate Na;
        try (apply number_or_zero_self; reflexivity).
      destruct s; destruct sa; reflexivity.
    - exists (PyFloat (fadd (S754_infinity s) a)). repeat split.
      apply number_or_zero_self, N.
    - discriminate N.
    - exists (PyFloat (fadd (S754_finite s m e) a)). repeat split.
      apply number_or_zero_self, N. }
  split; [|split; [exact Rises|]].
  - rewrite add_transaction_number by assumption.
    exists {| rows := rows t ++ [mk_row (next_rowid t) k a c now];
              seq := next_rowid t |}.
    split; [reflexivity|]. split; [reflexivity|]. split; [intros e; apply Other|].
    intros e. rewrite sum_by_kind_on_sum, amounts_of_insert, String.eqb_refl.
    reflexivity.
  - intros Ht. apply Rises, nonneg_not_nan, fadd_nonneg; [|exact Ha].
    rewrite plain_sum_aggregate. apply aggregate_sum_nonneg, Ht.
Qed.

Lemma append_adds_amount_witness :
  (exists t',
      add_transaction "2025-03-03 11:00:00" "income" (of_ratio 2 10) "gift"
        (Some salary_and_rent) = (Ok PyNone, Some t')
      /\ rows t'
         = rows salary_and_rent
           ++ [mk_row 3 "income" (of_ratio 2 10) "gift" "2025-03-03 11:00:00"]
      /\ sum_by_kind_on CompensatedSum t' "income"
         = number_or_zero
             (engine_sum CompensatedSum [of_ratio 10005 10; of_ratio 2 10]))
  /\ sum_rises_by_amount PlainSum "2025-03-03 11:00:00" "income"
       (of_ratio 2 10) "gift" salary_and_rent.
Proof.
  destruct (append_adds_amount_to_its_kind "2025-03-03 11:00:00" "income"
              (of_ratio 2 10) "gift" salary_and_rent eq_refl eq_refl)
    as ((t' & Hadd & Hrows & _ & Hsum) & _ & Hrises).
  split.
  - exists t'. split; [exact Hadd|]. split; [exact Hrows|].
    exact (Hsum CompensatedSum).
  - apply Hrises. repeat constructor.
Defined.

(** C1, as the specification states it, fails.  With the compensated
    SUM, on a ledger with incomes of 0.1 and 0.2 an income of 0.3 brings
    the sum to 0.6, which is not the former sum 0.30000000000000004 plus
    0.3.  With the plain SUM, on a ledger with an income of [-inf] an
    income of [inf] brings the sum to 0, the engine reporting no number,
    which is not the former sum plus the amount. *)
Lemma sum_does_not_always_rise_by_amount :
  (snd (add_transaction "2025-03-02 10:00:00" "income" (of_ratio 2 10) "b"
          (snd (add_transaction "2025-03-01 09:30:00" "income" (of_ratio 1 10) "a"
                  (snd (init_db None)))))
   = Some tenth_and_fifth
   /\ sum_by_kind_on CompensatedSum tenth_and_fifth "income"
      = PyFloat (fadd (of_ratio 1 10) (of_ratio 2 10))
   /\ ~ sum_rises_by_amount CompensatedSum
         "2025-03-03 11:00:00" "income" (of_ratio 3 10) "gift" tenth_and_fifth)
  /\ (snd (add_transaction "2025-03-01 09:30:00" "income" minus_infinity "a"
             (snd (init_db None)))
      = Some minus_infinity_income
      /\ ~ sum_rises_by_amount PlainSum
            "2025-03-03 11:00:00" "income" plus_infinity "gift"
            minus_infinity_income).
Proof.
  split; [split; [reflexivity|split; [vm_compute; reflexivity|]]
         |split; [reflexivity|]];
    intros (t' & v & Hadd & Hv & Heq & _);
    vm_compute in Hadd; injection Hadd as <-;
    vm_compute in Hv; injection Hv as <-;
    vm_compute in Heq; discriminate Heq.
Qed.

(** What [show_summary] reports, on either engine, from the sums the
    report counts. *)
Lemma show_summary_on_counted (e : engine) (t : table) :
  let i := zero_if_nan (engine_sum e (amounts_of "income" t)) in
  let x := zero_if_nan (engine_sum e (amounts_of "expense" t)) in
  show_summary_on e (Some t)
  = Ok (mk_summary
          (if is_zero i then PyInt 0 else PyFloat i)
          (if is_zero x then PyInt 0 else PyFloat x)
          (if is_zero i && is_zero x then PyInt 0 else PyFloat (fsub i x))).
Proof.
  unfold show_summary_on. rewrite !sum_by_kind_on_sum.
  unfold number_or_zero, zero_if_nan.
  destruct (engine_sum e (amounts_of "income" t)) as [si|si| |si mi ei];
    destruct (engine_sum e (amounts_of "expense" t)) as [sx|sx| |sx mx ex];
    reflexivity.
Qed.

(** C2, as the code has it.  On every table and either engine
    [show_summary] returns.  Its totals are the sums of the amounts of the
    two kinds, a sum that is not a number being counted as 0, and its
    balance is the counted sum of the incomes minus the counted sum of
    the expenses, by binary64 subtraction; a zero is shown as the int 0.
    When neither sum is NaN, and so on every ledger whose amounts are
    non-negative, the totals are the aggregate sums and the balance is
    exactly their difference, as the specification states.  On a ledger
    with an income of 1000.5 and an expense of 250.25 the report is
    1000.5, 250.25 and 750.25. *)
Theorem balance_is_income_minus_expense (e : engine) (t : table) :
  (let i := zero_if_nan (engine_sum e (amounts_of "income" t)) in
   let x := zero_if_nan (engine_sum e (amounts_of "expense" t)) in
   show_summary_on e (Some t)
   = Ok (mk_summary
           (if is_zero i then PyInt 0 else PyFloat i)
           (if is_zero x then PyInt 0 else PyFloat x)
           (if is_zero i && is_zero x then PyInt 0 else PyFloat (fsub i x))))
  /\ (is_nan (engine_sum e (amounts_of "income" t)) = false ->
      is_nan (engine_sum e (amounts_of "expense" t)) = false ->
      balance_of_aggregate_sums e t)
  /\ (amounts_nonneg t -> balance_of_aggregate_sums e t)
  /\ show_summary_on PlainSum (Some t) = show_summary (Some t)
  /\ show_summary (Some salary_and_rent)
     = Ok (mk_summary (PyFloat (of_ratio 10005 10))
                      (PyFloat (of_ratio 25025 100))
                      (PyFloat (of_ratio 75025 100)))
  /\ show_summary_on CompensatedSum (Some salary_and_rent)
     = show_summary (Some salary_and_rent).
Proof.
  assert (Stated : is_nan (engine_sum e (amounts_of "income" t)) = false ->
                   is_nan (engine_sum e (amounts_of "expense" t)) = false ->
                   balance_of_aggregate_sums e t).
  { intros Ni Nx. unfold balance_of_aggregate_sums, holds_sum.
    rewrite show_summary_on_counted. unfold zero_if_nan. rewrite Ni, Nx.
    eexists. split; [reflexivity|]. cbn [total_income total_expense balance].
    destruct (engine_sum e (amounts_of "income" t)) as [si|si| |si mi ei];
      try discriminate Ni;
      destruct (engine_sum e (amounts_of "expense" t)) as [sx|sx| |sx mx ex];
      try discriminate Nx; cbn [is_zero andb]; auto.
    repeat split; auto. right. destruct si; destruct sx; auto. }
  split; [apply show_summary_on_counted|].
  split; [exact Stated|].
  split; [intros Ht; apply Stated; apply engine_sum_nonneg_number, Ht|].
  split; [reflexivity|]. split; vm_compute; reflexivity.
Qed.

Lemma balance_is_income_minus_expense_witness :
  balance_of_aggregate_sums CompensatedSum salary_and_rent
  /\ show_summary (Some salary_and_rent)
     = Ok (mk_summary (PyFloat (of_ratio 10005 10))
                      (PyFloat (of_ratio 25025 100))
                      (PyFloat (of_ratio 75025 100))).
Proof.
  destruct (balance_is_income_minus_expense CompensatedSum salary_and_rent)
    as (_ & Hstated & _ & _ & Hreport & _).
  split; [|exact Hreport].
  apply Hstated; reflexivity.
Defined.

(** C2, as the specification states it, fails.  After an income of
    [inf] and an income of [-inf] the sum of the incomes is not a number,
    and the report shows the int 0 as total income, on either engine. *)
Lemma totals_are_not_always_the_sums :
  snd (add_transaction "2025-03-02 10:00:00" "income" minus_infinity "b"
         (snd (add_transaction "2025-03-01 09:30:00" "income" plus_infinity "a"
                 (snd (init_db None)))))
  = Some opposite_infinities
  /\ show_summary (Some opposite_infinities)
     = Ok (mk_summary (PyInt 0) (PyInt 0) (PyInt 0))
  /\ ~ balance_of_aggregate_sums PlainSum opposite_infinities
  /\ ~ balance_of_aggregate_sums CompensatedSum opposite_infinities.
Proof.
  split; [reflexivity|]. split; [reflexivity|].
  split; intros (s & Hs & [H|[H _]] & _);
    vm_compute in Hs; injection Hs as <-;
    vm_compute in H; discriminate H.
Qed.

(** C3, as the code has it.  [add_transaction] with a valid kind and a
    non-negative amount returns [None]; the record it creates gets the
    next rowid, which is above the id of every record in the table and
    above every id the table has handed out. *)
Theorem add_transaction_returns_none
    (now k : string) (a : float) (c : string) (t : table) :
  valid_kind k = true ->
  nonneg a = true ->
  exists t' r,
    add_transaction now k a c (Some t) = (Ok PyNone, Some t')
    /\ rows t' = rows t ++ [r]
    /\ r = mk_row (next_rowid t) k a c now
    /\ seq t < row_id r
    /\ (forall r0, In r0 (rows t) -> row_id r0 < row_id r)
    /\ seq t' = row_id r.
Proof.
  intros _ Ha. rewrite add_transaction_number by (apply nonneg_not_nan, Ha).
  do 2 eexists. repeat split; simpl.
  - unfold next_rowid. lia.
  - intros r0 H0. apply max_rowid_ge in H0. unfold next_rowid. lia.
Qed.

Lemma add_transaction_returns_none_witness :
  exists t' r,
    add_transaction "2025-03-01 09:30:00" "income" (of_Z 10) "salary" (Some empty_table)
    = (Ok PyNone, Some t')
    /\ rows t' = rows empty_table ++ [r]
    /\ r = mk_row (next_rowid empty_table) "income" (of_Z 10) "salary"
             "2025-03-01 09:30:00"
    /\ seq empty_table < row_id r
    /\ (forall r0, In r0 (rows empty_table) -> row_id r0 < row_id r)
    /\ seq t' = row_id r.
Proof.
  apply add_transaction_returns_none; reflexivity.
Defined.

(** C3, as the specification states it, fails: the call that creates
    record 1 in an empty table returns [None], not that id. *)
Lemma add_transaction_does_not_return_id :
  ~ returns_new_id "2025-03-01 09:30:00" "income" (of_Z 10) "salary" empty_table.
Proof.
  intros (t' & r & H & _). vm_compute in H. discriminate H.
Qed.

(** C4, as the code has it.  [add_transaction] with a kind outside
    income and expense and an amount that is a number returns normally and
    stores the record, appending the row with the next rowid, the kind,
    amount and category given and the clock reading; the aggregate sums of
    income and of expense are what they were. *)
Theorem unknown_kind_is_stored
    (now k : string) (a : float) (c : string) (t : table) :
  valid_kind k = false ->
  is_nan a = false ->
  exists t',
    add_transaction now k a c (Some t) = (Ok PyNone, Some t')
    /\ rows t' = rows t ++ [mk_row (next_rowid t) k a c now]
    /\ List.length (rows t') = S (List.length (rows t))
    /\ sum_by_kind t' "income" = sum_by_kind t "income"
    /\ sum_by_kind t' "expense" = sum_by_kind t "expense".
Proof.
  intros Hk Na. rewrite add_transaction_number by assumption.
  unfold valid_kind in Hk. apply orb_false_iff in Hk. destruct Hk as [Hi He].
  eexists. split; [reflexivity|]. simpl rows. split; [reflexivity|].
  rewrite !sum_by_kind_insert, Hi, He, List.length_app. simpl.
  repeat split. lia.
Qed.

Lemma unknown_kind_is_stored_witness :
  exists t',
    add_transaction "2025-03-01 09:30:00" "unknown" (of_Z 10) "misc" (Some empty_table)
    = (Ok PyNone, Some t')
    /\ rows t' = rows empty_table
                 ++ [mk_row (next_rowid empty_table) "unknown" (of_Z 10) "misc"
                       "2025-03-01 09:30:00"]
    /\ List.length (rows t') = S (List.length (rows empty_table))
    /\ sum_by_kind t' "income" = sum_by_kind empty_table "income"
    /\ sum_by_kind t' "expense" = sum_by_kind empty_table "expense".
Proof.
  apply unknown_kind_is_stored; reflexivity.
Defined.

(** C4, as the specification states it, fails: with the kind [unknown]
    the call does not raise, and the store is not what it was. *)
Lemma unknown_kind_is_not_rejected :
  ~ rejected_unchanged "2025-03-01 09:30:00" "unknown" (of_Z 10) "misc"
      (Some empty_table).
Proof.
  intros (e & H). vm_compute in H. discriminate H.
Qed.

(** C6. A table without records of a kind gives the int [0] as that
    kind's sum; on a table without records, and on a fresh file after
    [init_db], [show_summary] returns the three numbers [0], [0], [0]. *)
Theorem empty_store_sums_to_zero :
  (forall t kind, where_type kind (rows t) = [] -> sum_by_kind t kind = PyInt 0)
  /\ (forall t, rows t = [] ->
        show_summary (Some t) = Ok (mk_summary (PyInt 0) (PyInt 0) (PyInt 0)))
  /\ show_summary (snd (init_db None))
     = Ok (mk_summary (PyInt 0) (PyInt 0) (PyInt 0)).
Proof.
  assert (H : forall t kind,
             where_type kind (rows t) = [] -> sum_by_kind t kind = PyInt 0).
  { intros t kind E. unfold sum_by_kind, select_sum_amount. rewrite E. reflexivity. }
  split; [exact H|]. split; [|reflexivity].
  intros t E. unfold show_summary.
  rewrite !H by (rewrite E; reflexivity). reflexivity.
Qed.

Lemma empty_store_sums_to_zero_witness :
  sum_by_kind
    {| rows := [mk_row 1 "income" (of_Z 10) "salary" "2025-03-01 09:30:00"];
       seq := 1 |} "expense" = PyInt 0
  /\ show_summary (Some {| rows := []; seq := 7 |})
     = Ok (mk_summary (PyInt 0) (PyInt 0) (PyInt 0)).
Proof.
  split.
  - apply (proj1 empty_store_sums_to_zero). reflexivity.
  - apply (proj1 (proj2 empty_store_sums_to_zero)). reflexivity.
Defined.

(** C9. [init_db] never raises.  Called on a file that has been
    initialised and used, it leaves the table, every record in it and the
    report as they were; two calls in succession do what one does. *)
Theorem init_db_idempotent (db0 : database) (cs : list call) :
  let db := run cs (snd (init_db db0)) in
  fst (init_db db0) = Ok PyNone
  /\ init_db db = (Ok PyNone, db)
  /\ init_db (snd (init_db db0)) = init_db db0
  /\ show_summary (snd (init_db db)) = show_summary db
  /\ (forall t, init_db (Some t) = (Ok PyNone, Some t)).
Proof.
  intros db. subst db.
  destruct (init_db_table db0) as [t0 E0].
  assert (H1 : init_db (snd (init_db db0)) = init_db db0)
    by (destruct db0; reflexivity).
  rewrite E0 in *. destruct (run_table cs t0) as [t ->].
  repeat split; try reflexivity; try assumption.
  destruct db0; reflexivity.
Qed.

(** C10. [add_transaction] with a kind outside income and expense
    leaves the report as it was, whatever the amount; when the amount is a
    number the call returns normally and the record is in the table. *)
Theorem unknown_kind_is_not_counted
    (now k : string) (a : float) (c : string) (t : table) :
  valid_kind k = false ->
  show_summary (snd (add_transaction now k a c (Some t))) = show_summary (Some t)
  /\ (is_nan a = false ->
      exists t',
        add_transaction now k a c (Some t) = (Ok PyNone, Some t')
        /\ In (mk_row (next_rowid t) k a c now) (rows t')
        /\ (forall r, In r (rows t) -> In r (rows t'))).
Proof.
  intros Hk. unfold valid_kind in Hk. apply orb_false_iff in Hk.
  destruct Hk as [Hi He]. split.
  - destruct (sum_by_kind_add_other now k a c t "income" Hi) as (t1 & E1 & Si).
    destruct (sum_by_kind_add_other now k a c t "expense" He) as (t2 & E2 & Se).
    rewrite E1 in E2. injection E2 as <-. rewrite E1.
    unfold show_summary. rewrite Si, Se. reflexivity.
  - intros Na. rewrite add_transaction_number by assumption.
    eexists. split; [reflexivity|]. simpl. split.
    + apply in_or_app. right. left. reflexivity.
    + intros r Hr. apply in_or_app. left. exact Hr.
Qed.

Lemma unknown_kind_is_not_counted_witness :
  show_summary
    (snd (add_transaction "2025-03-01 09:30:00" "Income" (of_Z 10) "salary"
            (Some {| rows := [mk_row 1 "income" (of_Z 5) "gift" "2025-02-01 08:00:00"];
                     seq := 1 |})))
  = show_summary
      (Some {| rows := [mk_row 1 "income" (of_Z 5) "gift" "2025-02-01 08:00:00"];
               seq := 1 |})
  /\ exists t',
       add_transaction "2025-03-01 09:30:00" "Income" (of_Z 10) "salary"
         (Some {| rows := [mk_row 1 "income" (of_Z 5) "gift" "2025-02-01 08:00:00"];
                  seq := 1 |})
       = (Ok PyNone, Some t')
       /\ In (mk_row
                (next_rowid
                   {| rows := [mk_row 1 "income" (of_Z 5) "gift" "2025-02-01 08:00:00"];
                      seq := 1 |})
                "Income" (of_Z 10) "salary" "2025-03-01 09:30:00") (rows t')
       /\ (forall r,
             In r (rows {| rows := [mk_row 1 "income" (of_Z 5) "gift" "2025-02-01 08:00:00"];
                          seq := 1 |}) ->
             In r (rows t')).
Proof.
  pose proof (unknown_kind_is_not_counted "2025-03-01 09:30:00" "Income"
                (of_Z 10) "salary"
                {| rows := [mk_row 1 "income" (of_Z 5) "gift" "2025-02-01 08:00:00"];
                   seq := 1 |} eq_refl) as [H1 H2].
  split; [exact H1|]. apply H2. reflexivity.
Defined.

(* ===================================================================== *)
(** * Facts about the calculators *)
(* ===================================================================== *)

Lemma float_of_int_0 : float_of_int 0 = Ok zero.
Proof. reflexivity. Qed.

Lemma float_of_int_1 : float_of_int 1 = Ok one.
Proof. reflexivity. Qed.

Lemma float_of_int_100 : float_of_int 100 = Ok (of_Z 100).
Proof. reflexivity. Qed.

Lemma float_truediv_100 (x : float) :
  float_truediv_int x 100 = Ok (fdiv x (of_Z 100)).
Proof. unfold float_truediv_int. rewrite float_of_int_100. reflexivity. Qed.

Lemma float_truediv_0 (x : float) :
  float_truediv_int x 0 = Raise ZeroDivisionError.
Proof. unfold float_truediv_int. rewrite float_of_int_0. reflexivity. Qed.

Lemma int_add_float_1 (x : float) : int_add_float 1 x = Ok (fadd one x).
Proof. unfold int_add_float. rewrite float_of_int_1. reflexivity. Qed.

(** Rounding half to even lands within half a unit. *)
Lemma round_half_even_div_nearest (a b : Z) :
  0 <= a -> 0 < b ->
  0 <= round_half_even_div a b
  /\ Z.abs (2 * a - 2 * (round_half_even_div a b * b)) <= b.
Proof.
  intros Ha Hb. unfold round_half_even_div.
  pose proof (Z.div_mod a b ltac:(lia)) as D.
  pose proof (Z.mod_pos_bound a b Hb) as R.
  pose proof (Z.div_pos a b Ha Hb) as Q.
  set (q := a / b) in *. set (r := a mod b) in *.
  assert (E : forall k, 2 * a - 2 * (k * b) = 2 * r + 2 * ((q - k) * b)) by (intros; lia).
  destruct (Z.compare_spec (2 * r) b) as [C|C|C].
  - destruct (Z.even q).
    + split; [lia|]. rewrite E. replace (q - q) with 0 by lia. lia.
    + split; [lia|]. rewrite E. replace (q - (q + 1)) with (-1) by lia. lia.
  - split; [lia|]. rewrite E. replace (q - q) with 0 by lia. lia.
  - split; [lia|]. rewrite E. replace (q - (q + 1)) with (-1) by lia. lia.
Qed.

Lemma round2_rounded_to_cents (x : float) : rounded_to_cents x (round2 x).
Proof.
  destruct x as [s|s| |s m e]; simpl; try reflexivity.
  exists (cents m e).
  assert (Hb : 0 < 2 ^ Z.max (- e) 0) by (apply Z.pow_pos_nonneg; lia).
  assert (Ha : 0 <= Z.pos m * 100 * 2 ^ Z.max e 0)
    by (apply Z.mul_nonneg_nonneg; [lia | apply Z.pow_nonneg; lia]).
  destruct (round_half_even_div_nearest _ _ Ha Hb) as [H1 H2].
  unfold cents. auto.
Qed.

Section LibmFacts.

Variable libm_pow : float -> float -> float.
Variable cpow_range_error : float -> float -> bool.

Lemma float_pow_positive (b e : float) :
  positive_finite b = true ->
  finite e = true ->
  is_inf (positive_power libm_pow b e) = false ->
  float_pow libm_pow cpow_range_error b e
  = Ok (Real (positive_power libm_pow b e)).
Proof.
  intros Hb He Hinf. unfold float_pow, positive_power in *.
  destruct (is_zero e) eqn:Ze; [reflexivity|].
  destruct b as [sb|sb| |sb mb eb]; try discriminate Hb.
  destruct sb; try discriminate Hb.
  destruct e as [se|se| |se me ee]; try discriminate He; try discriminate Ze.
  change (is_nan (S754_finite false mb eb)) with false.
  change (is_nan (S754_finite se me ee)) with false.
  change (is_inf (S754_finite se me ee)) with false.
  change (is_inf (S754_finite false mb eb)) with false.
  change (is_zero (S754_finite false mb eb)) with false.
  change (fltb (S754_finite false mb eb) zero) with false.
  change (fabs (S754_finite false mb eb)) with (S754_finite false mb eb).
  cbv beta iota zeta. change (false && ?x) with false. cbv iota.
  destruct (feqb (S754_finite false mb eb) one); [reflexivity|].
  rewrite Hinf. reflexivity.
Qed.

(** On a positive finite growth factor and a finite number of periods,
    every operator of the formula is applied and the rounded product is
    returned, unless the power overflows. *)
Lemma compound_interest_eval (p r t : float) (n : Z) (fn : float) :
  float_of_int n = Ok fn ->
  is_zero fn = false ->
  positive_finite (fadd one (fdiv (fdiv r (of_Z 100)) fn)) = true ->
  finite (fmul fn t) = true ->
  is_inf (positive_power libm_pow
            (fadd one (fdiv (fdiv r (of_Z 100)) fn)) (fmul fn t)) = false ->
  compound_interest libm_pow cpow_range_error p r t n
  = ([TrueDiv; TrueDiv; Add; Mul; Pow; Mul; Round],
     Ok (round2 (fmul p (positive_power libm_pow
                           (fadd one (fdiv (fdiv r (of_Z 100)) fn))
                           (fmul fn t))))).
Proof.
  intros Hn Hz Hb He Hp. unfold compound_interest.
  rewrite float_truediv_100.
  unfold float_truediv_int, int_mul_float, float_truediv.
  rewrite Hn. cbn [bind perform eval_bind]. rewrite Hz.
  rewrite int_add_float_1. cbn [bind perform eval_bind].
  rewrite (float_pow_positive _ _ Hb He Hp). reflexivity.
Qed.

(** With [n = 0] the second division of the formula raises. *)
Lemma compound_interest_zero (p r t : float) :
  compound_interest libm_pow cpow_range_error p r t 0
  = ([TrueDiv; TrueDiv], Raise ZeroDivisionError).
Proof.
  unfold compound_interest.
  rewrite float_truediv_100. cbn [perform eval_bind].
  rewrite float_truediv_0. reflexivity.
Qed.

End LibmFacts.

(** [pow12_mantissa] is what it is said to be: the exact twelfth power
    of [monthly_base] lies within half a unit in the last place of it. *)
Lemma pow12_mantissa_nearest :
  exists m0,
    monthly_base = S754_finite false m0 (-52)
    /\ 2 * Z.abs (Zpos m0 ^ 12 - Zpos pow12_mantissa * 2 ^ 572) <= 2 ^ 572.
Proof.
  exists 4522364625817873%positive. split; [reflexivity|].
  vm_compute. discriminate.
Qed.

Lemma pow_rounded_within_4ulp : pow_within_4ulp pow_rounded.
Proof. split; vm_compute; reflexivity. Qed.

(** The answers the bracket of [pow_within_4ulp] allows. *)
Lemma pow_within_4ulp_cases (libm_pow : float -> float -> float) :
  pow_within_4ulp libm_pow ->
  exists m,
    libm_pow monthly_base twelve_periods = S754_finite false m (-52)
    /\ (pow12_mantissa - 4 <= m <= pow12_mantissa + 4)%positive.
Proof.
  intros [Hlo Hhi].
  destruct (libm_pow monthly_base twelve_periods) as [s|s| |s m e];
    try discriminate Hlo; try (destruct s; discriminate).
  unfold fleb, SFleb, SFcompare in Hlo, Hhi.
  destruct s; [discriminate Hlo|].
  destruct (Z.compare_spec (-52) e) as [E|E|E];
    destruct (Z.compare_spec e (-52)) as [E'|E'|E']; try lia;
    try discriminate Hlo; try discriminate Hhi.
  subst e. exists m. split; [reflexivity|].
  change (Pos.compare_cont Eq (pow12_mantissa - 4) m)
    with ((pow12_mantissa - 4) ?= m)%positive in Hlo.
  change (Pos.compare_cont Eq m (pow12_mantissa + 4))
    with (m ?= (pow12_mantissa + 4))%positive in Hhi.
  destruct (Pos.compare_spec (pow12_mantissa - 4) m);
    destruct (Pos.compare_spec m (pow12_mantissa + 4));
    try discriminate Hlo; try discriminate Hhi; lia.
Qed.

(** Every power the bracket allows gives the same amount in hundredths. *)
Lemma thousand_times_pow12_rounds (m : positive) :
  (pow12_mantissa - 4 <= m <= pow12_mantissa + 4)%positive ->
  round2 (fmul (of_Z 1000) (S754_finite false m (-52))) = of_ratio 105116 100.
Proof.
  intros H. unfold pow12_mantissa in H.
  assert (C : (m = 4734012331606232 \/ m = 4734012331606233
              \/ m = 4734012331606234 \/ m = 4734012331606235
              \/ m = 4734012331606236 \/ m = 4734012331606237
              \/ m = 4734012331606238 \/ m = 4734012331606239
              \/ m = 4734012331606240)%positive) by lia.
  repeat (destruct C as [-> | C]; [vm_compute; reflexivity|]).
  subst m. vm_compute. reflexivity.
Qed.

(* ===================================================================== *)
(** * The calculators: theorems *)
(* ===================================================================== *)

(** C5, as the code has it.  [compound_interest(p, r, t, 0)] raises
    for every [p], [r] and [t]; the exception is the ZeroDivisionError of
    the formula's own division by [n], raised after [rate/100] has been
    computed. *)
Theorem compound_interest_zero_periods_raises
    (libm_pow : float -> float -> float)
    (cpow_range_error : float -> float -> bool) (p r t : float) :
  outcome (compound_interest libm_pow cpow_range_error p r t 0)
  = Raise ZeroDivisionError
  /\ applied (compound_interest libm_pow cpow_range_error p r t 0)
     = [TrueDiv; TrueDiv]
  /\ float_truediv_int r 100 = Ok (fdiv r (of_Z 100))
  /\ float_truediv_int (fdiv r (of_Z 100)) 0 = Raise ZeroDivisionError.
Proof.
  rewrite compound_interest_zero.
  auto using float_truediv_100, float_truediv_0.
Qed.

(** C5, as the specification states it, fails: two operators of the
    formula have been applied when the call with [n = 0] raises. *)
Lemma compound_interest_zero_not_rejected_first :
  ~ rejected_before_formula
      (compound_interest pow_rounded no_range_error
         (of_Z 1000) (of_Z 5) (of_Z 1) 0).
Proof.
  intros [_ H]. vm_compute in H. discriminate H.
Qed.

(** C7. [simple_interest] applies the five operators of its formula
    and returns [principal * (1 + (rate / 100) * time)] rounded to two
    decimal places; it never raises.  On 1000, 5 and 2 it returns
    1100.0. *)
Theorem simple_interest_rounds_formula (principal rate time : float) :
  simple_interest principal rate time
  = ([TrueDiv; Mul; Add; Mul; Round],
     Ok (round2 (fmul principal (fadd one (fmul (fdiv rate (of_Z 100)) time)))))
  /\ rounded_to_cents
       (fmul principal (fadd one (fmul (fdiv rate (of_Z 100)) time)))
       (round2 (fmul principal (fadd one (fmul (fdiv rate (of_Z 100)) time))))
  /\ outcome (simple_interest (of_Z 1000) (of_Z 5) (of_Z 2)) = Ok (of_Z 1100).
Proof.
  split; [|split].
  - unfold simple_interest. rewrite float_truediv_100.
    cbn [perform eval_bind]. rewrite int_add_float_1. reflexivity.
  - apply round2_rounded_to_cents.
  - vm_compute. reflexivity.
Qed.

(** C8, as the code has it.  When [n] is not zero and converts to a
    float, the growth factor [1 + (rate/100)/n] is positive and finite,
    the number of periods [n * time] is finite and the power does not
    overflow, [compound_interest] applies the seven operators of its
    formula and returns [principal * factor ** periods] rounded to two
    decimal places as [simple_interest] rounds.  On 1000, 5, 1 and 12 it
    returns 1051.16 with every C library whose [pow] is within four units
    in the last place. *)
Theorem compound_interest_rounds_formula
    (libm_pow : float -> float -> float)
    (cpow_range_error : float -> float -> bool) :
  (forall (principal rate time : float) (n : Z),
      n <> 0 ->
      is_inf (of_Z n) = false ->
      positive_finite (fadd one (fdiv (fdiv rate (of_Z 100)) (of_Z n))) = true ->
      finite (fmul (of_Z n) time) = true ->
      is_inf (positive_power libm_pow
                (fadd one (fdiv (fdiv rate (of_Z 100)) (of_Z n)))
                (fmul (of_Z n) time)) = false ->
      compound_interest libm_pow cpow_range_error principal rate time n
      = ([TrueDiv; TrueDiv; Add; Mul; Pow; Mul; Round],
         Ok (round2 (fmul principal
                       (positive_power libm_pow
                          (fadd one (fdiv (fdiv rate (of_Z 100)) (of_Z n)))
                          (fmul (of_Z n) time)))))
      /\ rounded_to_cents
           (fmul principal
              (positive_power libm_pow
                 (fadd one (fdiv (fdiv rate (of_Z 100)) (of_Z n)))
                 (fmul (of_Z n) time)))
           (round2 (fmul principal
                      (positive_power libm_pow
                         (fadd one (fdiv (fdiv rate (of_Z 100)) (of_Z n)))
                         (fmul (of_Z n) time)))))
  /\ (pow_within_4ulp libm_pow ->
      compound_interest libm_pow cpow_range_error
        (of_Z 1000) (of_Z 5) (of_Z 1) 12
      = ([TrueDiv; TrueDiv; Add; Mul; Pow; Mul; Round],
         Ok (of_ratio 105116 100))).
Proof.
  split.
  - intros p r t n Hn Hinf Hb He Hp. split.
    + apply compound_interest_eval; try assumption.
      * unfold float_of_int. rewrite Hinf. reflexivity.
      * apply of_Z_nonzero, Hn.
    + apply round2_rounded_to_cents.
  - intros H. destruct (pow_within_4ulp_cases libm_pow H) as (m & Ey & Hm).
    unfold monthly_base, twelve_periods in Ey.
    assert (PP : positive_power libm_pow
                   (fadd one (fdiv (fdiv (of_Z 5) (of_Z 100)) (of_Z 12)))
                   (fmul (of_Z 12) (of_Z 1))
                 = S754_finite false m (-52)).
    { unfold positive_power.
      replace (is_zero (fmul (of_Z 12) (of_Z 1))) with false
        by (vm_compute; reflexivity).
      replace (feqb (fadd one (fdiv (fdiv (of_Z 5) (of_Z 100)) (of_Z 12))) one)
        with false by (vm_compute; reflexivity).
      exact Ey. }
    rewrite (compound_interest_eval libm_pow cpow_range_error
               (of_Z 1000) (of_Z 5) (of_Z 1) 12 (of_Z 12)).
    + rewrite PP, (thousand_times_pow12_rounds m Hm). reflexivity.
    + vm_compute. reflexivity.
    + vm_compute. reflexivity.
    + vm_compute. reflexivity.
    + vm_compute. reflexivity.
    + rewrite PP. reflexivity.
Qed.

Lemma compound_interest_rounds_formula_witness :
  compound_interest pow_rounded no_range_error (of_Z 2500) (of_ratio 45 10) (of_Z 3) 4
  = ([TrueDiv; TrueDiv; Add; Mul; Pow; Mul; Round],
     Ok (round2 (fmul (of_Z 2500)
                   (positive_power pow_rounded
                      (fadd one (fdiv (fdiv (of_ratio 45 10) (of_Z 100)) (of_Z 4)))
                      (fmul (of_Z 4) (of_Z 3))))))
  /\ compound_interest pow_rounded no_range_error (of_Z 1000) (of_Z 5) (of_Z 1) 12
     = ([TrueDiv; TrueDiv; Add; Mul; Pow; Mul; Round], Ok (of_ratio 105116 100)).
Proof.
  destruct (compound_interest_rounds_formula pow_rounded no_range_error)
    as [General Monthly].
  split.
  - refine (proj1 (General (of_Z 2500) (of_ratio 45 10) (of_Z 3) 4 _ _ _ _ _)).
    + discriminate.
    + vm_compute; reflexivity.
    + vm_compute; reflexivity.
    + vm_compute; reflexivity.
    + vm_compute; reflexivity.
  - refine (Monthly (conj _ _)); vm_compute; reflexivity.
Defined.

(** C8, as the specification states it, fails: with [n = 1] the call
    raises ZeroDivisionError on a rate of -100 over -1 year (zero to a
    negative power), and raises OverflowError on a rate of 100 over 2000
    years. *)
Lemma compound_interest_does_not_always_return :
  ~ returns (compound_interest pow_rounded no_range_error
               (of_Z 1000) (of_Z (-100)) (of_Z (-1)) 1)
  /\ ~ returns (compound_interest pow_rounded no_range_error
                  (of_Z 1000) (of_Z 100) (of_Z 2000) 1).
Proof.
  split; intros [v H]; vm_compute in H; discriminate H.
Qed.

(* ===================================================================== *)
(** * Runs of the store: further properties *)
(* ===================================================================== *)

Lemma run_app (cs1 cs2 : list call) (db : database) :
  run (cs1 ++ cs2) db = run cs2 (run cs1 db).
Proof. apply fold_left_app. Qed.

Lemma exec_add (now ty : string) (a : float) (cat : string) (t : table) :
  exec (Some t) (AddTransaction now ty a cat)
  = if is_nan a then Some t
    else Some {| rows := rows t ++ [mk_row (next_rowid t) ty a cat now];
                 seq := next_rowid t |}.
Proof.
  unfold exec. destruct (is_nan a) eqn:N.
  - rewrite add_transaction_nan by assumption. reflexivity.
  - rewrite add_transaction_number by assumption. reflexivity.
Qed.

Lemma inserted_app (cs1 cs2 : list call) :
  inserted (cs1 ++ cs2) = inserted cs1 ++ inserted cs2.
Proof. apply flat_map_app. Qed.

(** X1. The store is append-only and keeps what it is given: after
    a run on a table in which every call returns, the rows that were there
    are still there, unchanged and in place, and the rows after them carry,
    in call order, exactly the clock reading, kind, amount and category of
    the [add_transaction] calls of the run. *)
Theorem run_appends_the_inserted_calls (cs : list call) (t : table) :
  all_return cs ->
  exists t' added,
    run cs (Some t) = Some t'
    /\ rows t' = rows t ++ added
    /\ map payload added = inserted cs.
Proof.
  intros _.
  induction cs as [|c cs IH] using rev_ind.
  - exists t, []. simpl. rewrite app_nil_r. auto.
  - destruct IH as (t1 & added & Hrun & Hrows & Hpay).
    rewrite run_app, Hrun, inserted_app. simpl run.
    destruct c as [|now ty a cat].
    + exists t1, added. simpl. rewrite app_nil_r. auto.
    + rewrite exec_add. simpl inserted. destruct (is_nan a).
      * exists t1, added. rewrite app_nil_r. auto.
      * eexists. exists (added ++ [mk_row (next_rowid t1) ty a cat now]).
        split; [reflexivity|]. simpl rows. split.
        -- rewrite Hrows, app_assoc. reflexivity.
        -- rewrite map_app, Hpay. reflexivity.
Qed.

Lemma run_appends_the_inserted_calls_witness :
  exists t' added,
    run [InitDb;
         AddTransaction "2025-03-03 11:00:00" "income" (of_ratio 2 10) "gift";
         AddTransaction "2025-03-04 12:00:00" "expense" (of_Z 10) "food"]
      (Some salary_and_rent) = Some t'
    /\ rows t' = rows salary_and_rent ++ added
    /\ map payload added
       = [("2025-03-03 11:00:00", "income", of_ratio 2 10, "gift");
          ("2025-03-04 12:00:00", "expense", of_Z 10, "food")].
Proof.
  apply (run_appends_the_inserted_calls
           [InitDb;
            AddTransaction "2025-03-03 11:00:00" "income" (of_ratio 2 10) "gift";
            AddTransaction "2025-03-04 12:00:00" "expense" (of_Z 10) "food"]
           salary_and_rent).
  repeat (apply Forall_cons; [first [exact I | reflexivity]|]). apply Forall_nil.
Defined.

Lemma max_rowid_le (rs : list row) (b : Z) :
  0 <= b -> (forall r, In r rs -> row_id r <= b) -> max_rowid rs <= b.
Proof.
  intros Hb. induction rs as [|r rs IH]; simpl; intros H; [lia|].
  pose proof (H r (or_introl eq_refl)).
  assert (max_rowid rs <= b) by (apply IH; intros; apply H; auto). lia.
Qed.

Lemma first_rowids_bound (n : nat) (z : Z) :
  In z (first_rowids n) -> z <= Z.of_nat n.
Proof.
  unfold first_rowids. intros H. apply in_map_iff in H.
  destruct H as (k & <- & Hk). apply in_seq in Hk. lia.
Qed.

Lemma first_rowids_succ (n : nat) :
  first_rowids (S n) = first_rowids n ++ [Z.of_nat n + 1].
Proof.
  unfold first_rowids. rewrite seq_S, map_app. simpl. do 2 f_equal. lia.
Qed.

(** The next rowid of a table numbered [1..n] is [n + 1]. *)
Lemma next_rowid_numbered (t : table) :
  rowids t = first_rowids (List.length (rows t)) ->
  seq t = Z.of_nat (List.length (rows t)) ->
  next_rowid t = Z.of_nat (List.length (rows t)) + 1.
Proof.
  intros Hids Hseq. unfold next_rowid. rewrite Hseq.
  assert (max_rowid (rows t) <= Z.of_nat (List.length (rows t))).
  { apply max_rowid_le; [lia|]. intros r Hr.
    apply first_rowids_bound. rewrite <- Hids. unfold rowids.
    apply in_map, Hr. }
  lia.
Qed.

(** X2. On a fresh file, after [init_db] and a run in which every
    call returns, the rowids of the table are 1, 2, ..., n in insertion
    order, where n is the number of [add_transaction] calls of the run. *)
Theorem fresh_run_numbers_rows (cs : list call) :
  all_return cs ->
  exists t,
    run cs (snd (init_db None)) = Some t
    /\ rowids t = first_rowids (List.length (inserted cs))
    /\ seq t = Z.of_nat (List.length (inserted cs))
    /\ List.length (rows t) = List.length (inserted cs).
Proof.
  intros _.
  induction cs as [|c cs IH] using rev_ind.
  - exists empty_table. repeat split.
  - destruct IH as (t & Hrun & Hids & Hseq & Hlen).
    rewrite run_app, Hrun, inserted_app, List.length_app. simpl run.
    destruct c as [|now ty a cat].
    + exists t. simpl. rewrite Nat.add_0_r. auto.
    + rewrite exec_add. simpl inserted. destruct (is_nan a); simpl List.length.
      * exists t. rewrite Nat.add_0_r. auto.
      * rewrite <- Hlen in Hids, Hseq.
        rewrite (next_rowid_numbered t Hids Hseq).
        eexists. split; [reflexivity|]. unfold rowids. simpl rows. simpl seq.
        rewrite map_app, List.length_app, Nat.add_1_r, first_rowids_succ.
        simpl. rewrite <- Hlen. fold (rowids t). rewrite Hids.
        repeat split; try reflexivity; lia.
Qed.

Lemma fresh_run_numbers_rows_witness :
  exists t,
    run [AddTransaction "2025-03-03 11:00:00" "income" (of_ratio 2 10) "gift";
         InitDb;
         AddTransaction "2025-03-04 12:00:00" "expense" (of_Z 10) "food"]
      (snd (init_db None)) = Some t
    /\ rowids t = [1; 2]
    /\ seq t = 2
    /\ List.length (rows t) = 2%nat.
Proof.
  apply (fresh_run_numbers_rows
           [AddTransaction "2025-03-03 11:00:00" "income" (of_ratio 2 10) "gift";
            InitDb;
            AddTransaction "2025-03-04 12:00:00" "expense" (of_Z 10) "food"]).
  repeat (apply Forall_cons; [first [exact I | reflexivity]|]). apply Forall_nil.
Defined.

Lemma entered_app (kind : string) (cs1 cs2 : list call) :
  entered kind (cs1 ++ cs2) = entered kind cs1 ++ entered kind cs2.
Proof. unfold entered. rewrite inserted_app, filter_app, map_app. reflexivity. Qed.

(** X3. After a run on a table in which every call returns, the
    amounts summed for a kind are the former ones followed by the amounts
    entered for that kind in call order; calls of other kinds and
    [init_db] do not enter them.  On either engine the sum reported for
    the kind is the engine's sum of that list, with the int 0 in its place
    when that sum is zero or is not a number; with the plain accumulator
    it is the former aggregate with the entered amounts added to it one by
    one. *)
Theorem run_sums_entered_amounts
    (e : engine) (cs : list call) (t : table) (kind : string) :
  all_return cs ->
  exists t',
    run cs (Some t) = Some t'
    /\ amounts_of kind t' = amounts_of kind t ++ entered kind cs
    /\ sum_by_kind_on e t' kind
       = number_or_zero (engine_sum e (amounts_of kind t ++ entered kind cs))
    /\ engine_sum PlainSum (amounts_of kind t')
       = fold_left fadd (entered kind cs) (aggregate_sum kind (rows t)).
Proof.
  intros _.
  assert (H : exists t',
             run cs (Some t) = Some t'
             /\ amounts_of kind t' = amounts_of kind t ++ entered kind cs).
  { induction cs as [|c cs IH] using rev_ind.
    - exists t. rewrite app_nil_r. auto.
    - destruct IH as (t1 & Hrun & Hsum).
      rewrite run_app, Hrun, entered_app, app_assoc, <- Hsum. simpl run.
      destruct c as [|now ty a cat].
      + exists t1. rewrite app_nil_r. auto.
      + rewrite exec_add. unfold entered. simpl inserted.
        destruct (is_nan a); [exists t1; rewrite app_nil_r; auto|].
        eexists. split; [reflexivity|].
        rewrite amounts_of_insert. simpl.
        destruct (String.eqb ty kind); reflexivity. }
  destruct H as (t' & Hrun & Hsum). exists t'.
  rewrite sum_by_kind_on_sum, Hsum.
  split; [exact Hrun|]. split; [reflexivity|]. split; [reflexivity|].
  simpl engine_sum. rewrite fold_left_app.
  unfold aggregate_sum. rewrite aggregate_sum_fold. reflexivity.
Qed.

Lemma run_sums_entered_amounts_witness :
  exists t',
    run [InitDb;
         AddTransaction "2025-03-03 11:00:00" "income" (of_ratio 2 10) "gift";
         AddTransaction "2025-03-04 12:00:00" "expense" (of_Z 10) "food";
         AddTransaction "2025-03-05 13:00:00" "income" (of_ratio 1 10) "gift"]
      (Some salary_and_rent) = Some t'
    /\ amounts_of "income" t'
       = [of_ratio 10005 10; of_ratio 2 10; of_ratio 1 10]
    /\ sum_by_kind_on CompensatedSum t' "income"
       = number_or_zero
           (engine_sum CompensatedSum
              [of_ratio 10005 10; of_ratio 2 10; of_ratio 1 10])
    /\ engine_sum PlainSum (amounts_of "income" t')
       = fadd (fadd (of_ratio 10005 10) (of_ratio 2 10)) (of_ratio 1 10).
Proof.
  apply (run_sums_entered_amounts CompensatedSum
           [InitDb;
            AddTransaction "2025-03-03 11:00:00" "income" (of_ratio 2 10) "gift";
            AddTransaction "2025-03-04 12:00:00" "expense" (of_Z 10) "food";
            AddTransaction "2025-03-05 13:00:00" "income" (of_ratio 1 10) "gift"]
           salary_and_rent "income").
  repeat (apply Forall_cons; [first [exact I | reflexivity]|]). apply Forall_nil.
Defined.

(** X4. On a ledger whose amounts are non-negative, the sum of a
    kind is the int 0 or a float that is non-negative and not NaN. *)
Theorem sums_of_nonneg_ledger_are_nonneg (t : table) (kind : string) :
  amounts_nonneg t ->
  sum_by_kind t kind = PyInt 0
  \/ exists f, sum_by_kind t kind = PyFloat f
               /\ nonneg f = true /\ is_nan f = false.
Proof.
  intros H. rewrite sum_by_kind_aggregate.
  pose proof (aggregate_sum_nonneg kind t H) as N.
  unfold number_or_zero.
  destruct (is_nan _ || is_zero _); [left; reflexivity|].
  right. eexists. split; [reflexivity|]. split; [exact N|].
  apply nonneg_not_nan, N.
Qed.

Lemma sums_of_nonneg_ledger_witness :
  sum_by_kind
    {| rows := [mk_row 1 "income" (of_ratio 1 10) "gift" "2025-02-01 08:00:00"];
       seq := 1 |} "income" = PyInt 0
  \/ exists f,
       sum_by_kind
         {| rows := [mk_row 1 "income" (of_ratio 1 10) "gift" "2025-02-01 08:00:00"];
            seq := 1 |} "income" = PyFloat f
       /\ nonneg f = true /\ is_nan f = false.
Proof.
  apply sums_of_nonneg_ledger_are_nonneg. repeat constructor.
Defined.

(** X5. [add_transaction] never creates the table: on a file where
    [init_db] has not run, every run without [init_db] leaves the file
    without table, each call raising OperationalError, and [show_summary]
    raises OperationalError as well. *)
Theorem without_init_db_nothing_is_stored (cs : list call) :
  no_init cs ->
  run cs None = None
  /\ (forall now ty a cat,
        add_transaction now ty a cat (run cs None) = (Raise OperationalError, None))
  /\ show_summary (run cs None) = Raise OperationalError.
Proof.
  intros H.
  assert (E : run cs None = None).
  { induction H as [|c cs Hc _ IH]; [reflexivity|].
    destruct c; [contradiction|]. exact IH. }
  rewrite E. repeat split.
Qed.

Lemma without_init_db_witness :
  run [AddTransaction "2025-03-01 09:30:00" "income" (of_Z 10) "salary"] None = None
  /\ (forall now ty a cat,
        add_transaction now ty a cat
          (run [AddTransaction "2025-03-01 09:30:00" "income" (of_Z 10) "salary"] None)
        = (Raise OperationalError, None))
  /\ show_summary
       (run [AddTransaction "2025-03-01 09:30:00" "income" (of_Z 10) "salary"] None)
     = Raise OperationalError.
Proof.
  apply without_init_db_nothing_is_stored.
  constructor; [discriminate|constructor].
Defined.

(* ===================================================================== *)
(** * The calculators: further properties *)
(* ===================================================================== *)

(** Rounding a positive mantissa above the smallest exponent gives a
    finite float or an infinity of the given sign. *)
Lemma binary_round_aux_number (s : bool) (m e : Z) (l : location) :
  0 < m -> emin prec emax <= e ->
  (exists m' e', binary_round_aux prec emax s m e l = S754_finite s m' e')
  \/ binary_round_aux prec emax s m e l = S754_infinity s.
Proof.
  intros Hm He. unfold binary_round_aux.
  destruct (shr_fexp_pos m e l Hm He) as [H1 E1].
  destruct (shr_fexp prec emax m e l) as [mrs1 e1]; simpl in H1, E1.
  assert (H1' : 0 < round_nearest_even (shr_m mrs1) (loc_of_shr_record mrs1)).
  { destruct (loc_of_shr_record mrs1) as [|[]]; simpl; try lia.
    destruct (Z.even (shr_m mrs1)); lia. }
  destruct (shr_fexp_pos _ e1 loc_Exact H1' E1) as [H2 _].
  destruct (shr_fexp prec emax _ e1 loc_Exact) as [mrs2 e2]; simpl in H2.
  destruct (shr_m mrs2) as [|p|p]; try lia.
  destruct (e2 <=? emax - prec); eauto.
Qed.

Lemma of_Z_finite (n : Z) :
  n <> 0 -> is_inf (of_Z n) = false ->
  exists s m e, of_Z n = S754_finite s m e.
Proof.
  intros Hn Hinf.
  assert (R : forall s m,
             (exists m' e', binary_round prec emax s m 0 = S754_finite s m' e')
             \/ binary_round prec emax s m 0 = S754_infinity s).
  { intros s m. unfold binary_round, shl_align.
    destruct (fexp prec emax (Z.pos (digits2_pos m) + 0) - 0) as [|k|k] eqn:E;
      apply binary_round_aux_number; try lia;
      unfold fexp, emin, prec, emax in *; lia. }
  unfold of_Z, binary_normalize in *.
  destruct n as [|m|m]; [contradiction| |].
  - destruct (R false m) as [(m' & e' & E)|E]; rewrite E in *; [eauto|discriminate].
  - destruct (R true m) as [(m' & e' & E)|E]; rewrite E in *; [eauto|discriminate].
Qed.

(** Multiplying a double by 1.0 gives the double. *)
Lemma fmul_one_finite (s : bool) (m : positive) (e : Z) :
  bounded prec emax m e = true ->
  fmul (S754_finite s m e) one = S754_finite s m e.
Proof.
  intros B. unfold bounded, canonical_mantissa in B.
  apply andb_true_iff in B. destruct B as [C L].
  apply Z.eqb_eq in C.
  change one with (S754_finite false 4503599627370496 (-52)).
  cbn [fmul SFmul]. rewrite Pos.mul_comm. cbn [Pos.mul].
  rewrite xorb_false_r.
  unfold binary_round_aux.
  match goal with
  | |- context [shr_fexp prec emax (Z.pos ?M) (e + -52) loc_Exact] =>
      assert (S1 : shr_fexp prec emax (Z.pos M) (e + -52) loc_Exact
                   = (Build_shr_record (Z.pos m) false false, e))
  end.
  { unfold shr_fexp. cbn [Zdigits2 digits2_pos].
    match goal with
    | |- context [fexp prec emax ?A - ?B] =>
        replace (fexp prec emax A - B) with 52
    end.
    - cbn [shr iter_pos shr_1 shr_record_of_loc orb]. f_equal. lia.
    - match goal with
      | |- context [fexp prec emax ?A] =>
          replace A with (Z.pos (digits2_pos m) + e) by lia
      end.
      rewrite C. lia. }
  rewrite S1. cbn [shr_m loc_of_shr_record round_nearest_even].
  assert (S2 : shr_fexp prec emax (Z.pos m) e loc_Exact
               = (Build_shr_record (Z.pos m) false false, e)).
  { unfold shr_fexp. cbn [Zdigits2]. rewrite C, Z.sub_diag. reflexivity. }
  rewrite S2. cbn [shr_m]. rewrite L. reflexivity.
Qed.

Lemma fmul_one (x : float) : is_double x = true -> fmul x one = x.
Proof.
  destruct x as [s|s| |s m e]; intros V.
  - change one with (S754_finite false 4503599627370496 (-52)).
    simpl. rewrite xorb_false_r. reflexivity.
  - change one with (S754_finite false 4503599627370496 (-52)).
    simpl. rewrite xorb_false_r. reflexivity.
  - reflexivity.
  - apply fmul_one_finite, V.
Qed.

Lemma fdiv_nonneg (x : float) (m : positive) (e : Z) :
  nonneg x = true -> nonneg (fdiv x (S754_finite false m e)) = true.
Proof.
  destruct x as [s|s| |s mx ex]; simpl; try congruence;
    try (rewrite xorb_false_r; auto).
  intros Hs. apply negb_true_iff in Hs. subst s.
  unfold SFdiv_core_binary.
  match goal with
  | |- context [Z.div_eucl ?a ?b] =>
      pose proof (Z.div_pos a b) as Q;
      unfold Z.div in Q; destruct (Z.div_eucl a b) as [q r]
  end.
  apply binary_round_aux_nonneg. simpl in Q. apply Q; [|lia].
  destruct (ex - e - _) as [|k|k]; try lia.
  apply Z.shiftl_nonneg. lia.
Qed.

Lemma fmul_nonneg_finite (x : float) (m : positive) (e : Z) :
  nonneg x = true -> nonneg (fmul x (S754_finite false m e)) = true.
Proof.
  destruct x as [s|s| |s mx ex]; simpl; try congruence;
    try (rewrite xorb_false_r; auto).
  intros Hs. apply negb_true_iff in Hs. subst s.
  apply binary_round_aux_nonneg. lia.
Qed.

Lemma finite_fmul_nonneg (m : positive) (e : Z) (y : float) :
  nonneg y = true -> nonneg (fmul (S754_finite false m e) y) = true.
Proof.
  destruct y as [s|s| |s my ey]; simpl; try congruence; auto.
  intros Hs. apply negb_true_iff in Hs. subst s.
  apply binary_round_aux_nonneg. lia.
Qed.

Lemma round2_nonneg (x : float) : nonneg x = true -> nonneg (round2 x) = true.
Proof.
  destruct x as [s|s| |s m e]; simpl; auto.
  intros Hs. apply negb_true_iff in Hs. subst s.
  unfold hundredths. destruct (cents m e); try reflexivity.
  apply (fdiv_nonneg (S754_finite false p 0)). reflexivity.
Qed.

Lemma float_of_int_value (n : Z) :
  is_inf (of_Z n) = false -> float_of_int n = Ok (of_Z n).
Proof. intros H. unfold float_of_int. rewrite H. reflexivity. Qed.

(** The first three operators of [compound_interest] for an [n] that is
    not zero and converts to a float. *)
Lemma compound_interest_prefix
    (libm_pow : float -> float -> float)
    (cpow_range_error : float -> float -> bool)
    (p r t : float) (n : Z) :
  n <> 0 -> is_inf (of_Z n) = false ->
  compound_interest libm_pow cpow_range_error p r t n
  = (growth <- ([TrueDiv; TrueDiv; Add; Mul; Pow],
                float_pow libm_pow cpow_range_error
                  (fadd one (fdiv (fdiv r (of_Z 100)) (of_Z n)))
                  (fmul (of_Z n) t)) ;;
     amount <- perform Mul (Ok (float_mul_number p growth)) ;;
     perform Round (py_round2 amount))%eval.
Proof.
  intros Hn Hinf. unfold compound_interest.
  rewrite float_truediv_100.
  unfold float_truediv_int, int_mul_float, float_truediv.
  rewrite (float_of_int_value n Hinf). cbn [bind perform eval_bind].
  rewrite (of_Z_nonzero n Hn), int_add_float_1. cbn [bind perform eval_bind].
  destruct (float_pow _ _ _ _) as [[f|]|x]; reflexivity.
Qed.

(** X6. Over no time the rate does not matter: for every rate, and
    every [n] that is not zero and converts to a float,
    [compound_interest(p, r, 0.0, n)] returns [round(p, 2)]. *)
Theorem compound_interest_over_no_time
    (libm_pow : float -> float -> float)
    (cpow_range_error : float -> float -> bool)
    (p r : float) (s : bool) (n : Z) :
  n <> 0 ->
  is_inf (of_Z n) = false ->
  is_double p = true ->
  compound_interest libm_pow cpow_range_error p r (S754_zero s) n
  = ([TrueDiv; TrueDiv; Add; Mul; Pow; Mul; Round], Ok (round2 p)).
Proof.
  intros Hn Hinf Hp.
  rewrite compound_interest_prefix by assumption.
  destruct (of_Z_finite n Hn Hinf) as (sn & mn & en & ->).
  cbn [fmul SFmul]. unfold float_pow. cbn [is_zero].
  cbn [eval_bind perform float_mul_number py_round2 app].
  rewrite (fmul_one p Hp). reflexivity.
Qed.

Lemma compound_interest_over_no_time_witness :
  compound_interest pow_rounded no_range_error
    (of_ratio 123456 100) (of_Z 7) (S754_zero false) 12
  = ([TrueDiv; TrueDiv; Add; Mul; Pow; Mul; Round],
     Ok (round2 (of_ratio 123456 100))).
Proof.
  apply compound_interest_over_no_time.
  - discriminate.
  - vm_compute; reflexivity.
  - vm_compute; reflexivity.
Defined.

(** X7. At a rate of zero the time does not matter: for every
    finite time, [simple_interest(p, 0.0, t)] returns [round(p, 2)]. *)
Theorem simple_interest_at_zero_rate (p t : float) (s : bool) :
  finite t = true ->
  is_double p = true ->
  simple_interest p (S754_zero s) t
  = ([TrueDiv; Mul; Add; Mul; Round], Ok (round2 p)).
Proof.
  intros Ht Hp. unfold simple_interest. rewrite float_truediv_100.
  cbn [perform eval_bind]. rewrite int_add_float_1. cbn [perform eval_bind app].
  change (of_Z 100) with (S754_finite false 7036874417766400 (-46)).
  cbn [fdiv SFdiv].
  assert (E : fadd one (fmul (S754_zero (xorb s false)) t) = one).
  { destruct t as [st|st| |st mt et]; try discriminate Ht; reflexivity. }
  rewrite E, (fmul_one p Hp). reflexivity.
Qed.

Lemma simple_interest_at_zero_rate_witness :
  simple_interest (of_ratio 123456 100) (S754_zero false) (of_Z 3)
  = ([TrueDiv; Mul; Add; Mul; Round], Ok (round2 (of_ratio 123456 100))).
Proof.
  apply simple_interest_at_zero_rate; vm_compute; reflexivity.
Defined.

(** X8. A negative growth factor with a fractional number of
    periods never gives an amount: the power is complex, and the call
    raises OverflowError in the power or TypeError in [round]. *)
Theorem compound_interest_negative_factor_raises
    (libm_pow : float -> float -> float)
    (cpow_range_error : float -> float -> bool)
    (p r t : float) (n : Z) :
  n <> 0 ->
  is_inf (of_Z n) = false ->
  fltb (fadd one (fdiv (fdiv r (of_Z 100)) (of_Z n))) zero = true ->
  is_inf (fadd one (fdiv (fdiv r (of_Z 100)) (of_Z n))) = false ->
  finite (fmul (of_Z n) t) = true ->
  is_integer (fmul (of_Z n) t) = false ->
  compound_interest libm_pow cpow_range_error p r t n
  = if cpow_range_error (fadd one (fdiv (fdiv r (of_Z 100)) (of_Z n)))
                        (fmul (of_Z n) t)
    then ([TrueDiv; TrueDiv; Add; Mul; Pow], Raise OverflowError)
    else ([TrueDiv; TrueDiv; Add; Mul; Pow; Mul; Round], Raise TypeError).
Proof.
  intros Hn Hinf Hneg Hb Hfin Hfrac.
  rewrite compound_interest_prefix by assumption.
  set (b := fadd one (fdiv (fdiv r (of_Z 100)) (of_Z n))) in *.
  set (e := fmul (of_Z n) t) in *.
  unfold float_pow.
  destruct e as [se|se| |se me ee]; try discriminate Hfin; try discriminate Hfrac.
  destruct b as [sb|sb| |sb mb eb]; try discriminate Hb; try discriminate Hneg;
    try (destruct sb; discriminate Hneg).
  cbn [is_zero is_nan is_inf]. rewrite Hneg, Hfrac. cbn [negb andb].
  destruct (cpow_range_error _ _); reflexivity.
Qed.

Lemma compound_interest_negative_factor_witness :
  compound_interest pow_rounded no_range_error
    (of_Z 1000) (of_Z (-300)) (of_ratio 1 2) 1
  = if no_range_error (fadd one (fdiv (fdiv (of_Z (-300)) (of_Z 100)) (of_Z 1)))
                      (fmul (of_Z 1) (of_ratio 1 2))
    then ([TrueDiv; TrueDiv; Add; Mul; Pow], Raise OverflowError)
    else ([TrueDiv; TrueDiv; Add; Mul; Pow; Mul; Round], Raise TypeError).
Proof.
  apply compound_interest_negative_factor_raises.
  - discriminate.
  - vm_compute; reflexivity.
  - vm_compute; reflexivity.
  - vm_compute; reflexivity.
  - vm_compute; reflexivity.
  - vm_compute; reflexivity.
Defined.

(** X9. A growth factor of zero over a negative finite number of
    periods raises ZeroDivisionError in the power, for every principal. *)
Theorem compound_interest_zero_factor_raises
    (libm_pow : float -> float -> float)
    (cpow_range_error : float -> float -> bool)
    (p r t : float) (n : Z) :
  n <> 0 ->
  is_inf (of_Z n) = false ->
  is_zero (fadd one (fdiv (fdiv r (of_Z 100)) (of_Z n))) = true ->
  fltb (fmul (of_Z n) t) zero = true ->
  is_inf (fmul (of_Z n) t) = false ->
  compound_interest libm_pow cpow_range_error p r t n
  = ([TrueDiv; TrueDiv; Add; Mul; Pow], Raise ZeroDivisionError).
Proof.
  intros Hn Hinf Hz Hneg Hfin.
  rewrite compound_interest_prefix by assumption.
  set (b := fadd one (fdiv (fdiv r (of_Z 100)) (of_Z n))) in *.
  set (e := fmul (of_Z n) t) in *.
  unfold float_pow.
  destruct b as [sb|sb| |sb mb eb]; try discriminate Hz.
  destruct e as [se|se| |se me ee]; try discriminate Hfin; try discriminate Hneg.
  cbn [is_zero is_nan is_inf]. rewrite Hneg. reflexivity.
Qed.

Lemma compound_interest_zero_factor_witness :
  compound_interest pow_rounded no_range_error
    (of_Z 1000) (of_Z (-400)) (of_Z (-2)) 4
  = ([TrueDiv; TrueDiv; Add; Mul; Pow], Raise ZeroDivisionError).
Proof.
  apply compound_interest_zero_factor_raises.
  - discriminate.
  - vm_compute; reflexivity.
  - vm_compute; reflexivity.
  - vm_compute; reflexivity.
  - vm_compute; reflexivity.
Defined.

(** X10. For a positive finite principal, a rate that is not
    negative and a positive finite time, [simple_interest] returns an
    amount that is not negative and not NaN. *)
Theorem simple_interest_is_nonneg (p r t : float) :
  positive_finite p = true ->
  nonneg r = true ->
  positive_finite t = true ->
  exists y,
    simple_interest p r t = ([TrueDiv; Mul; Add; Mul; Round], Ok y)
    /\ nonneg y = true
    /\ is_nan y = false.
Proof.
  intros Hp Hr Ht. unfold simple_interest. rewrite float_truediv_100.
  cbn [perform eval_bind]. rewrite int_add_float_1. cbn [perform eval_bind app].
  eexists. split; [reflexivity|].
  assert (N : nonneg (round2 (fmul p (fadd one (fmul (fdiv r (of_Z 100)) t)))) = true).
  { apply round2_nonneg.
    destruct p as [sp|sp| |sp mp ep]; try discriminate Hp.
    destruct sp; try discriminate Hp.
    destruct t as [st|st| |st mt et]; try discriminate Ht.
    destruct st; try discriminate Ht.
    apply finite_fmul_nonneg, fadd_nonneg; [reflexivity|].
    apply fmul_nonneg_finite.
    change (of_Z 100) with (S754_finite false 7036874417766400 (-46)).
    apply fdiv_nonneg, Hr. }
  split; [exact N|apply nonneg_not_nan, N].
Qed.

Lemma simple_interest_is_nonneg_witness :
  exists y,
    simple_interest (of_Z 1000) (of_Z 5) (of_Z 2)
    = ([TrueDiv; Mul; Add; Mul; Round], Ok y)
    /\ nonneg y = true
    /\ is_nan y = false.
Proof.
  apply simple_interest_is_nonneg; vm_compute; reflexivity.
Defined.

(* ===================================================================== *)
(** * The menu: properties *)
(* ===================================================================== *)

Lemma add_transaction_ok_inv (now k : string) (a : float) (c : string)
    (db db' : database) (v : pyvalue) :
  add_transaction now k a c db = (Ok v, db') ->
  exists t,
    db = Some t /\ is_nan a = false
    /\ db' = Some {| rows := rows t ++ [mk_row (next_rowid t) k a c now];
                     seq := next_rowid t |}.
Proof.
  unfold add_transaction, sql_insert. destruct db as [t|]; [|discriminate].
  destruct (is_nan a); [discriminate|].
  intros H. injection H as _ <-. eauto.
Qed.

Lemma add_transaction_raise_inv (now k : string) (a : float) (c : string)
    (db db' : database) (e : exn) :
  add_transaction now k a c db = (Raise e, db') -> db' = db.
Proof.
  unfold add_transaction, sql_insert. destruct db as [t|].
  - destruct (is_nan a); [|discriminate]. intros H. injection H as _ <-. reflexivity.
  - intros H. injection H as _ <-. reflexivity.
Qed.

Lemma print_all_file (lines : list string) : forall s,
  file (print_all lines s) = file s.
Proof.
  unfold print_all. induction lines as [|l lines IH]; intros s; simpl; [reflexivity|].
  rewrite IH. reflexivity.
Qed.

(** Case analysis of one iteration. *)
Ltac menu_cases :=
  repeat match goal with
    | |- context [String.eqb ?c ?lit] =>
        let E := fresh "Choice" in destruct (String.eqb c lit) eqn:E
    | |- context [match ?l with [] => _ | _ :: _ => _ end] =>
        is_var l; destruct l
    | |- context [py_float ?rt ?l] =>
        let E := fresh "Parsed" in destruct (py_float rt l) eqn:E
    | |- context [py_int ?rt ?l] =>
        let E := fresh "Parsed" in destruct (py_int rt l) eqn:E
    | |- context [add_transaction ?n ?k ?a ?c ?d] =>
        let E := fresh "Added" in
        destruct (add_transaction n k a c d) as [[?|?] ?] eqn:E
    | |- context [show_summary ?d] =>
        let E := fresh "Shown" in destruct (show_summary d) eqn:E
    | |- context [outcome ?c] =>
        let E := fresh "Computed" in destruct (outcome c) eqn:E
    end.

Ltac menu_unfold :=
  unfold menu_step, menu_body, add_entry, input_terms, input_float, input_int,
    py_input, report, add_from_menu.

(** The loop is its body, iterated. *)
Lemma main_loop_step (rt : runtime) (inputs : list string) (s : session) :
  main_loop rt inputs s
  = match menu_step rt inputs s with
    | Continue rest s' => main_loop rt rest s'
    | Stop e s' => (e, s')
    end.
Proof.
  destruct inputs as [|choice rest]; cbn [main_loop]; menu_unfold;
    [reflexivity|].
  menu_cases; reflexivity.
Qed.

(** An iteration that goes on has read its choice and what the choice
    asks for; it has left the file alone, or the choice was 1 or 2 and
    [add_transaction] has returned. *)
Lemma menu_step_continue (rt : runtime) (inputs rest : list string)
    (s s' : session) :
  menu_step rt inputs s = Continue rest s' ->
  exists choice consumed,
    inputs = choice :: consumed ++ rest
    /\ (file s' = file s
        \/ ((choice = "1" \/ choice = "2")
            /\ exists now kind a c v,
                 valid_kind kind = true
                 /\ add_transaction now kind a c (file s) = (Ok v, file s'))).
Proof.
  destruct inputs as [|choice inputs]; menu_unfold; [discriminate|].
  menu_cases; intros H; try discriminate H; injection H as <- <-;
    exists choice;
    cbn [file py_print write]; rewrite ?print_all_file; cbn [file write].
  - exists [s0; s1]. split; [reflexivity|]. right.
    apply String.eqb_eq in Choice. split; [auto|].
    cbn [file readings write] in Added. rewrite print_all_file in Added.
    lazymatch type of Added with
    | add_transaction ?n ?k ?a ?c _ = (Ok ?v, _) => exists n, k, a, c, v
    end.
    split; [reflexivity|exact Added].
  - exists [s0; s1]. split; [reflexivity|]. right.
    apply String.eqb_eq in Choice0. split; [auto|].
    cbn [file readings write] in Added. rewrite print_all_file in Added.
    lazymatch type of Added with
    | add_transaction ?n ?k ?a ?c _ = (Ok ?v, _) => exists n, k, a, c, v
    end.
    split; [reflexivity|exact Added].
  - exists []. auto.
  - exists [s0; s1; s2]. auto.
  - exists [s0; s1; s2; s3]. auto.
  - exists []. auto.
Qed.

(** An iteration that ends the program has left the file alone; it ends
    it by the exit choice only when the choice read is 6. *)
Lemma menu_step_stop (rt : runtime) (inputs : list string)
    (s s' : session) (e : ending) :
  menu_step rt inputs s = Stop e s' ->
  file s' = file s
  /\ (e = Exited -> exists rest, inputs = "6" :: rest).
Proof.
  destruct inputs as [|choice inputs]; menu_unfold.
  - intros H. injection H as <- <-. cbn [file write py_print].
    rewrite ?print_all_file. split; [reflexivity|discriminate].
  - menu_cases; intros H; try discriminate H; injection H as <- <-;
      cbn [file py_print write]; rewrite ?print_all_file; cbn [file];
      try (split; [reflexivity|discriminate]);
      try (apply add_transaction_raise_inv in Added; subst;
           cbn [file write py_print]; rewrite ?print_all_file;
           cbn [file write py_print];
           split; [reflexivity|discriminate]).
    apply String.eqb_eq in Choice4. subst choice.
    split; [reflexivity|]. eauto.
Qed.

Lemma extends_step (t : table) (now kind : string) (a : float) (c : string)
    (db db' : database) (v : pyvalue) :
  valid_kind kind = true ->
  add_transaction now kind a c db = (Ok v, db') ->
  extends t db -> extends t db'.
Proof.
  intros Hk Hadd (t1 & added & -> & Hrows & Hadded).
  apply add_transaction_ok_inv in Hadd.
  destruct Hadd as (t2 & E & Na & ->). injection E as <-.
  eexists. exists (added ++ [mk_row (next_rowid t1) kind a c now]).
  split; [reflexivity|]. simpl rows. split.
  - rewrite Hrows, app_assoc. reflexivity.
  - apply Forall_app. split; [exact Hadded|].
    constructor; [|constructor]. simpl. auto.
Qed.

Lemma main_loop_extends (rt : runtime) (t : table) (n : nat) :
  forall inputs s,
    (List.length inputs < n)%nat ->
    extends t (file s) ->
    extends t (file (snd (main_loop rt inputs s))).
Proof.
  induction n as [|n IH]; intros inputs s Hlen Hext; [lia|].
  rewrite main_loop_step. destruct (menu_step rt inputs s) as [rest s'|e s'] eqn:E.
  - apply menu_step_continue in E.
    destruct E as (choice & consumed & -> & Hfile).
    apply IH.
    + simpl in Hlen. rewrite List.length_app in Hlen. lia.
    + destruct Hfile as [->|(_ & now & kind & a & c & v & Hk & Hadd)];
        [exact Hext|].
      eapply extends_step; eauto.
  - apply menu_step_stop in E. destruct E as [E _]. cbn [snd]. rewrite E. exact Hext.
Qed.

(** X11. Whatever is typed, the menu only appends, and only incomes
    and expenses: when the program ends, the table holds the rows it held
    after [init_db], unchanged and in place, followed by rows of kind
    income or expense whose amount is a number. *)
Theorem menu_appends_incomes_and_expenses
    (rt : runtime) (inputs : list string) (db : database) :
  exists t0,
    snd (init_db db) = Some t0
    /\ extends t0 (file (snd (main rt inputs db))).
Proof.
  destruct (init_db_table db) as [t0 E]. exists t0. split; [exact E|].
  unfold main. destruct (init_db db) as [[v|e] db'] eqn:I.
  - simpl in E. subst db'.
    apply (main_loop_extends rt t0 (S (List.length inputs))); [lia|].
    exists t0, []. cbn [file]. rewrite app_nil_r.
    repeat split. constructor.
  - destruct db; discriminate I.
Qed.

Lemma main_loop_untouched (rt : runtime) (n : nat) :
  forall inputs s,
    (List.length inputs < n)%nat ->
    Forall (fun line => line <> "1" /\ line <> "2") inputs ->
    file (snd (main_loop rt inputs s)) = file s.
Proof.
  induction n as [|n IH]; intros inputs s Hlen Hall; [lia|].
  rewrite main_loop_step. destruct (menu_step rt inputs s) as [rest s'|e s'] eqn:E.
  - apply menu_step_continue in E.
    destruct E as (choice & consumed & -> & Hfile).
    inversion Hall as [|? ? [H1 H2] Htail]; subst.
    apply Forall_app in Htail. destruct Htail as [_ Hrest].
    rewrite IH.
    + destruct Hfile as [->|([?|?] & _)]; [reflexivity|contradiction|contradiction].
    + simpl in Hlen. rewrite List.length_app in Hlen. lia.
    + exact Hrest.
  - apply menu_step_stop in E. destruct E as [E _]. cbn [snd]. exact E.
Qed.

(** X12. Only choices 1 and 2 touch the file: when no line typed is
    [1] or [2], the program ends with the file as [init_db] left it,
    whatever the summary and the calculators did. *)
Theorem menu_without_entries_leaves_file
    (rt : runtime) (inputs : list string) (db : database) :
  Forall (fun line => line <> "1" /\ line <> "2") inputs ->
  file (snd (main rt inputs db)) = snd (init_db db).
Proof.
  intros H. unfold main.
  destruct db as [t|]; simpl init_db; cbv iota;
    rewrite (main_loop_untouched rt (S (List.length inputs))); auto.
Qed.

Lemma menu_without_entries_witness :
  file (snd (main example_runtime ["3"; "4"; "1000"; "5"; "250"; "x"; "6"] None))
  = snd (init_db None).
Proof.
  apply menu_without_entries_leaves_file.
  repeat (constructor; [split; discriminate|]). constructor.
Defined.

Lemma main_loop_exit (rt : runtime) (n : nat) :
  forall inputs s,
    (List.length inputs < n)%nat ->
    fst (main_loop rt inputs s) = Exited ->
    In "6" inputs.
Proof.
  induction n as [|n IH]; intros inputs s Hlen Hexit; [lia|].
  rewrite main_loop_step in Hexit.
  destruct (menu_step rt inputs s) as [rest s'|e s'] eqn:E.
  - apply menu_step_continue in E.
    destruct E as (choice & consumed & -> & _).
    right. apply in_or_app. right. apply (IH rest s'); [|exact Hexit].
    simpl in Hlen. rewrite List.length_app in Hlen. lia.
  - apply menu_step_stop in E. destruct E as [_ H6]. cbn [fst] in Hexit.
    destruct (H6 Hexit) as [rest ->]. left. reflexivity.
Qed.

(** X13. The program ends normally only by the exit choice: if it
    exits, one of the lines typed is [6]; on any other input it ends with
    an uncaught exception. *)
Theorem menu_exits_only_on_6
    (rt : runtime) (inputs : list string) (db : database) :
  ~ In "6" inputs ->
  exists u, fst (main rt inputs db) = Crashed u.
Proof.
  intros Hno.
  destruct (fst (main rt inputs db)) as [|u] eqn:E; [|eauto].
  exfalso. apply Hno. unfold main in E.
  destruct db as [t|]; simpl init_db in E; cbv iota in E;
    apply (main_loop_exit rt (S (List.length inputs))) in E; auto.
Qed.

Lemma menu_exits_only_on_6_witness :
  exists u, fst (main example_runtime ["3"; "1"; "250"; "salary"] None) = Crashed u.
Proof.
  apply menu_exits_only_on_6.
  simpl. intros [H|[H|[H|[H|[]]]]]; discriminate H.
Defined.

(** X14. The menu does not guard the number of compounding periods:
    after choice 5 and three numbers, the line [0] ends the program with
    an uncaught ZeroDivisionError; the lines after it are not read and the
    file is as [init_db] left it. *)
Theorem menu_crashes_on_zero_periods
    (rt : runtime) (lp lr lt ln : string) (rest : list string)
    (p r t : float) (db : database) :
  py_float rt lp = Some p ->
  py_float rt lr = Some r ->
  py_float rt lt = Some t ->
  py_int rt ln = Some 0 ->
  fst (main rt ("5" :: lp :: lr :: lt :: ln :: rest) db)
  = Crashed (Exn ZeroDivisionError)
  /\ file (snd (main rt ("5" :: lp :: lr :: lt :: ln :: rest) db))
     = snd (init_db db).
Proof.
  intros Hp Hr Ht Hn.
  assert (E : forall s,
             exists s',
               main_loop rt ("5" :: lp :: lr :: lt :: ln :: rest) s
               = (Crashed (Exn ZeroDivisionError), s')
               /\ file s' = file s).
  { intros s. cbn [main_loop]. menu_unfold.
    cbn [String.eqb Ascii.eqb Bool.eqb]. rewrite Hp, Hr, Ht, Hn.
    unfold outcome. rewrite compound_interest_zero. cbn [snd].
    eexists. split; [reflexivity|].
    cbn [file write py_print]. rewrite ?print_all_file. reflexivity. }
  unfold main. destruct db as [t0|]; simpl init_db; cbv iota;
    match goal with
    | |- context [main_loop rt _ ?s] => destruct (E s) as (s' & -> & Hf)
    end; auto.
Qed.

Lemma menu_crashes_on_zero_periods_witness :
  fst (main example_runtime ["5"; "1000"; "5"; "1"; "0"; "6"] None)
  = Crashed (Exn ZeroDivisionError)
  /\ file (snd (main example_runtime ["5"; "1000"; "5"; "1"; "0"; "6"] None))
     = snd (init_db None).
Proof.
  apply (menu_crashes_on_zero_periods example_runtime "1000" "5" "1" "0" ["6"]
           (of_Z 1000) (of_Z 5) (of_Z 1) None); reflexivity.
Defined.

(** X15. An entry made through the menu is stored as typed: on a fresh
    file, choice 1 (or 2), an amount that parses to a number, a category
    and then choice 6 end the program normally with one row in the table,
    numbered 1, of kind income (or expense), carrying that amount, that
    category and the first clock reading; lines after the 6 are not
    read. *)
Theorem menu_stores_the_entry
    (rt : runtime) (choice kind la category : string) (rest : list string)
    (a : float) :
  (choice = "1" /\ kind = "income") \/ (choice = "2" /\ kind = "expense") ->
  py_float rt la = Some a ->
  is_nan a = false ->
  fst (main rt (choice :: la :: category :: "6" :: rest) None) = Exited
  /\ file (snd (main rt (choice :: la :: category :: "6" :: rest) None))
     = Some {| rows := [mk_row 1 kind a category (clock rt 0)]; seq := 1 |}.
Proof.
  intros Hc Hp Na. unfold main. simpl init_db. cbv iota.
  destruct Hc as [[-> ->]|[-> ->]];
    cbn [main_loop]; menu_unfold;
    cbn [String.eqb Ascii.eqb Bool.eqb]; rewrite Hp;
    cbn [file readings write py_print]; rewrite ?print_all_file;
    cbn [file readings write py_print];
    rewrite add_transaction_number by exact Na;
    cbn [String.eqb Ascii.eqb Bool.eqb fst snd file write py_print];
    rewrite ?print_all_file; split; reflexivity.
Qed.

Lemma menu_stores_the_entry_witness :
  fst (main example_runtime ["1"; "250"; "salary"; "6"; "3"] None) = Exited
  /\ file (snd (main example_runtime ["1"; "250"; "salary"; "6"; "3"] None))
     = Some {| rows := [mk_row 1 "income" (of_Z 250) "salary"
                          (clock example_runtime 0)];
               seq := 1 |}.
Proof.
  apply (menu_stores_the_entry example_runtime "1" "income" "250" "salary" ["3"]
           (of_Z 250)).
  - left. split; reflexivity.
  - reflexivity.
  - reflexivity.
Defined.

(** X16. An amount the menu cannot store ends the program and stores
    nothing: after choice 1 or 2, a line that [float] rejects raises
    ValueError before the category is asked for, and a line that parses to
    NaN raises IntegrityError after it; in both cases the file is as
    [init_db] left it. *)
Theorem menu_rejects_bad_amounts
    (rt : runtime) (choice la : string) (rest : list string) (db : database) :
  choice = "1" \/ choice = "2" ->
  (py_float rt la = None ->
   fst (main rt (choice :: la :: rest) db) = Crashed ValueError
   /\ file (snd (main rt (choice :: la :: rest) db)) = snd (init_db db))
  /\ (forall a category rest',
        py_float rt la = Some a -> is_nan a = true ->
        rest = category :: rest' ->
        fst (main rt (choice :: la :: rest) db) = Crashed (Exn IntegrityError)
        /\ file (snd (main rt (choice :: la :: rest) db)) = snd (init_db db)).
Proof.
  intros Hc. split.
  - intros Hp. unfold main.
    destruct db as [t0|]; simpl init_db; cbv iota;
      destruct Hc as [->| ->];
      cbn [main_loop]; menu_unfold;
      cbn [String.eqb Ascii.eqb Bool.eqb]; rewrite Hp;
      cbn [fst snd file write py_print]; rewrite ?print_all_file;
      split; reflexivity.
  - intros a category rest' Hp Na ->. unfold main.
    destruct db as [t0|]; simpl init_db; cbv iota;
      destruct Hc as [->| ->];
      cbn [main_loop]; menu_unfold;
      cbn [String.eqb Ascii.eqb Bool.eqb]; rewrite Hp;
      rewrite add_transaction_nan by exact Na;
      cbn [fst snd file write py_print]; rewrite ?print_all_file;
      split; reflexivity.
Qed.

Lemma menu_rejects_bad_amounts_witness :
  (fst (main example_runtime ["1"; "ten"; "salary"; "6"] None) = Crashed ValueError
   /\ file (snd (main example_runtime ["1"; "ten"; "salary"; "6"] None))
      = snd (init_db None))
  /\ (fst (main example_runtime ["2"; "nan"; "rent"; "6"] None)
      = Crashed (Exn IntegrityError)
      /\ file (snd (main example_runtime ["2"; "nan"; "rent"; "6"] None))
         = snd (init_db None)).
Proof.
  split.
  - refine (proj1 (menu_rejects_bad_amounts example_runtime "1" "ten"
                     ["salary"; "6"] None (or_introl eq_refl)) _).
    reflexivity.
  - refine (proj2 (menu_rejects_bad_amounts example_runtime "2" "nan"
                     ["rent"; "6"] None (or_intror eq_refl))
              S754_nan "rent" ["6"] _ _ _); reflexivity.
Defined.
